(** * ClimateGuardian AI: risk scoring, geospatial matching and alert dispatch

    A shallow embedding of the core of the backend:
      - [app/services/ai_prediction.py]      (module [Prediction])
      - [app/services/alert_service.py]      (module [AlertSvc])
      - [app/api/v1/endpoints/emergency.py]  (module [Endpoint])
    together with the SQLAlchemy models and Pydantic schemas they use
    (module [Models]); module [Scenario] holds the data of the examples.
    Modules [Explain], [UpdatePass] and [Listing] hold the other functions
    of the same three files.

    Conventions.
      - A Python [float] is an exact rational ([Q]); rounding is outside the
        model.  Every comparison the code makes is kept as written.
      - A Python [str] is its list of code points ([pystr]), so that [len]
        is [length].
      - A nullable column is an [option]; Python truthiness ([if x:],
        [x or d], [x and y]) is written out by [truthy_*] and [or_default].
      - A call that may raise returns [exn_or]; a [try/except] is a [match].

    The file has two parts: the definitions, module by module, and then the
    lemmas and theorems about them. *)

From Stdlib Require Import List String Ascii ZArith QArith Lia Lqa Bool.
From Stdlib Require Import DecimalString.
From stdpp Require Import base option countable gmap.
From stdpp Require Import strings.
Import ListNotations.

Local Open Scope Q_scope.

(* ===================================================================== *)
(** * Part I: definitions *)
(* ===================================================================== *)

(** ** Python values *)

Module Py.

(** A string is its list of code points. *)
Abbreviation pystr := (list N).

Definition lit (s : string) : pystr :=
  List.map N_of_ascii (list_ascii_of_string s).

(** [str(n)] for an integer. *)
Definition str_of_Z (z : Z) : pystr :=
  lit (NilZero.string_of_int (Z.to_int z)).

(** [str.upper()] on the ASCII letters (the only ones it is applied to:
    the values of the severity enum). *)
Definition upper_char (c : N) : N :=
  if ((97 <=? c) && (c <=? 122))%N then (c - 32)%N else c.

Definition upper (s : pystr) : pystr := List.map upper_char s.

(** A slice [s[:n]]. *)
Definition slice_to (n : nat) (s : pystr) : pystr := firstn n s.

(** [if x:] on an optional float: the value, when the test passes ([None]
    and [0.0] are false). *)
Definition if_truthy (x : option Q) : option Q :=
  match x with
  | Some q => if Qeq_bool q 0 then None else Some q
  | None => None
  end.

(** Truthiness of a string: the empty string is false. *)
Definition truthy_str (s : pystr) : bool :=
  match s with
  | [] => false
  | _ :: _ => true
  end.

Definition truthy_opt_str (s : option pystr) : bool :=
  match s with
  | Some t => truthy_str t
  | None => false
  end.

(** [x or d] on an optional float. *)
Definition or_default (x : option Q) (d : Q) : Q :=
  match x with
  | Some q => if Qeq_bool q 0 then d else q
  | None => d
  end.

(** [x or d] on an optional string. *)
Definition or_default_str (x : option pystr) (d : pystr) : pystr :=
  match x with
  | Some (c :: t) => c :: t
  | _ => d
  end.

(** [a > b], [a < b] and [a <= b] on floats. *)
Definition py_gt (a b : Q) : bool := negb (Qle_bool a b).
Definition py_lt (a b : Q) : bool := negb (Qle_bool b a).
Definition py_le (a b : Q) : bool := Qle_bool a b.

(** [min(a, b)]: the first argument unless the second is smaller. *)
Definition py_min (a b : Q) : Q := if py_lt b a then b else a.

(** [max(a, b)]: the first argument unless the second is larger. *)
Definition py_max (a b : Q) : Q := if py_gt b a then b else a.

Definition py_sum (l : list Q) : Q := fold_right Qplus 0 l.

(** [np.mean] of a vector. *)
Definition np_mean (l : list Q) : Q :=
  py_sum l / inject_Z (Z.of_nat (length l)).

(** The result of a call that may raise. *)
Inductive exn_or (A : Type) : Type :=
| Return (a : A)
| Raise (e : pystr).
Arguments Return {A} a.
Arguments Raise {A} e.

End Py.

Import Py.

(** ** The SQLAlchemy models *)

Module Models.

(** [app/models/climate.py], class [ClimateData]: every reading is a
    nullable [Float] column. *)
Record ClimateData := {
  cd_id : Z;
  station_id : Z;
  timestamp : Z;
  temperature : option Q;
  humidity : option Q;
  pressure : option Q;
  wind_speed : option Q;
  wind_direction : option Q;
  precipitation : option Q;
  visibility : option Q;
  cloud_cover : option Q;
  uv_index : option Q;
  pm25 : option Q;
  pm10 : option Q;
  co : option Q;
  no2 : option Q;
  so2 : option Q;
  o3 : option Q
}.

(** [app/models/climate.py], class [RiskAssessment] (the two JSON text
    columns are not modelled). *)
Record RiskAssessment := {
  climate_data_id : Z;
  flood_risk : Q;
  drought_risk : Q;
  storm_risk : Q;
  heat_wave_risk : Q;
  cold_wave_risk : Q;
  wildfire_risk : Q;
  overall_risk : Q;
  model_version : string;
  confidence_score : Q;
  prediction_horizon : Z
}.

(** [app/models/emergency.py] *)
Inductive AlertSeverity := LOW | MEDIUM | HIGH | CRITICAL.

Inductive AlertStatus := ACTIVE | RESOLVED | CANCELLED.

Definition severity_value (s : AlertSeverity) : pystr :=
  match s with
  | LOW => lit "low"
  | MEDIUM => lit "medium"
  | HIGH => lit "high"
  | CRITICAL => lit "critical"
  end.

(** [alert.severity.value == "critical"] *)
Definition is_critical (s : AlertSeverity) : bool :=
  bool_decide (severity_value s = lit "critical").

(** Class [EmergencyAlert], with the columns the modelled functions read
    or write.  [title], [description] and [severity] are [nullable=False];
    [status] has a default but may hold NULL. *)
Record EmergencyAlert := {
  alert_id : pystr;
  title : pystr;
  description : pystr;
  severity : AlertSeverity;
  status : option AlertStatus;
  latitude : Q;
  longitude : Q;
  radius : option Q;
  location_name : option pystr;
  risk_type : option pystr;
  end_time : option Z;
  expires_at : option Z;
  contact_info : option pystr;
  updated_at : option Z
}.

(** [app/models/user.py] *)
Inductive UserRole := CITIZEN | GOVERNMENT | EMERGENCY_RESPONDER | RESEARCHER | ADMIN.

#[global] Instance AlertSeverity_eq_dec : EqDecision AlertSeverity.
Proof. solve_decision. Defined.

#[global] Instance AlertStatus_eq_dec : EqDecision AlertStatus.
Proof. solve_decision. Defined.

#[global] Instance UserRole_eq_dec : EqDecision UserRole.
Proof. solve_decision. Defined.

(** [role in roles], for the SQL [in_] and for Python's [in]: a NULL role
    is in no list. *)
Definition role_in (r : option UserRole) (roles : list UserRole) : bool :=
  match r with
  | Some x => bool_decide (x ∈ roles)
  | None => false
  end.

(** Class [User], with the columns the modelled functions read.  The
    coordinates are [String(20)] columns, the radius an [Integer]. *)
Record User := {
  id : Z;
  email : pystr;
  phone_number : option pystr;
  role : option UserRole;
  is_active : option bool;
  default_latitude : option pystr;
  default_longitude : option pystr;
  notification_radius : option Z
}.

(** The two tables the services read: alerts by their unique [alert_id],
    users in the order a query returns them. *)
Record Db := {
  alerts : gmap pystr EmergencyAlert;
  users : list User
}.

End Models.

Import Models.

(** ** [app/services/ai_prediction.py] *)

Module Prediction.

(** The learned tier's collaborators (feature preparation, the scaler and
    the Keras model) are outside the repository's logic: [LearnedModel]
    gives, for an observation, the row [risk_predictions[0]] they produce,
    or [None] when the feature vector is empty or anything in the tier
    raises; both cases end in the rule-based assessment. *)
Definition LearnedModel := ClimateData -> option (list Q).

(** [_generate_default_risk_assessment].  The six scores start at 0.0 and
    each is assigned in one of the four [if] blocks below, which are kept
    in the order and the shape of the source. *)

(** The temperature block: [(heat_wave_risk, cold_wave_risk)]. *)
Definition temperature_risks (cd : ClimateData) : Q * Q :=
  match if_truthy (temperature cd) with
  | Some t =>
      if py_gt t 35 then (py_min 1 ((t - 35) / 10), 0)
      else if py_lt t (-10) then (0, py_min 1 ((-10 - t) / 20))
      else (0, 0)
  | None => (0, 0)
  end.

(** The precipitation block: [(flood_risk, drought_risk)]. *)
Definition precipitation_risks (cd : ClimateData) : Q * Q :=
  match if_truthy (precipitation cd) with
  | Some p =>
      if py_gt p 50 then (py_min 1 ((p - 50) / 100), 0)
      else if py_lt p 1 then (0, 3 # 10)
      else (0, 0)
  | None => (0, 0)
  end.

(** The wind block: [storm_risk]. *)
Definition wind_risk (cd : ClimateData) : Q :=
  match if_truthy (wind_speed cd) with
  | Some w => if py_gt w 15 then py_min 1 ((w - 15) / 20) else 0
  | None => 0
  end.

(** The humidity-and-temperature block: [wildfire_risk]. *)
Definition humidity_temperature_risk (cd : ClimateData) : Q :=
  match if_truthy (humidity cd), if_truthy (temperature cd) with
  | Some h, Some t =>
      if py_lt h 30 && py_gt t 25
      then py_min 1 ((30 - h) / 30 * (t - 25) / 15)
      else 0
  | _, _ => 0
  end.

Definition _generate_default_risk_assessment (cd : ClimateData) : RiskAssessment :=
  let '(heat_wave, cold_wave) := temperature_risks cd in
  let '(flood, drought) := precipitation_risks cd in
  let storm := wind_risk cd in
  let wildfire := humidity_temperature_risk cd in
  let overall := np_mean [flood; drought; storm; heat_wave; cold_wave; wildfire] in
  {| climate_data_id := cd_id cd;
     flood_risk := flood;
     drought_risk := drought;
     storm_risk := storm;
     heat_wave_risk := heat_wave;
     cold_wave_risk := cold_wave;
     wildfire_risk := wildfire;
     overall_risk := overall;
     model_version := "rule_based_v1.0";
     confidence_score := 6 # 10;
     prediction_horizon := 24 |}.

(** [generate_risk_assessment]: the learned tier, with the rule-based tier
    behind its [features.size == 0] test and its [except Exception].  The
    mean is taken over the whole predicted row; an index past the row's
    end raises [IndexError], which the handler turns into the fallback. *)
Definition generate_risk_assessment (model : LearnedModel) (cd : ClimateData)
  : RiskAssessment :=
  match model cd with
  | None => _generate_default_risk_assessment cd
  | Some row =>
      let overall := np_mean row in
      match row with
      | p0 :: p1 :: p2 :: p3 :: p4 :: p5 :: _ =>
          {| climate_data_id := cd_id cd;
             flood_risk := p0;
             drought_risk := p1;
             storm_risk := p2;
             heat_wave_risk := p3;
             cold_wave_risk := p4;
             wildfire_risk := p5;
             overall_risk := overall;
             model_version := "v1.0";
             confidence_score := 85 # 100;
             prediction_horizon := 24 |}
      | _ => _generate_default_risk_assessment cd
      end
  end.

(** The six category scores of an assessment, in the order of the source. *)
Definition category_scores (r : RiskAssessment) : list Q :=
  [flood_risk r; drought_risk r; storm_risk r;
   heat_wave_risk r; cold_wave_risk r; wildfire_risk r].

(** A score on the 0-1 scale. *)
Definition unit_interval (x : Q) : Prop := 0 <= x <= 1.

(** What the learned model's output layer (six sigmoid units) gives. *)
Definition sigmoid_row (row : list Q) : Prop :=
  length row = 6%nat /\ Forall unit_interval row.

(** Every reading column of the observation is NULL. *)
Definition no_reading (cd : ClimateData) : Prop :=
  temperature cd = None /\ humidity cd = None /\ pressure cd = None
  /\ wind_speed cd = None /\ wind_direction cd = None
  /\ precipitation cd = None /\ visibility cd = None
  /\ cloud_cover cd = None /\ uv_index cd = None
  /\ pm25 cd = None /\ pm10 cd = None /\ co cd = None
  /\ no2 cd = None /\ so2 cd = None /\ o3 cd = None.

(** The "notable" score of [_generate_risk_explanations]. *)
Definition notable : Q := 5 # 10.

(** The observation of the worked example: temperature 40, humidity 20,
    wind speed 20 and no other reading. *)
Definition known_input (cd : ClimateData) : Prop :=
  temperature cd = Some 40 /\ humidity cd = Some 20
  /\ wind_speed cd = Some 20 /\ precipitation cd = None.

(** An observation with the given four readings and nothing else. *)
Definition observation (t h w p : option Q) : ClimateData :=
  {| cd_id := 1; station_id := 1; timestamp := 0;
     temperature := t; humidity := h; pressure := None; wind_speed := w;
     wind_direction := None; precipitation := p; visibility := None;
     cloud_cover := None; uv_index := None; pm25 := None; pm10 := None;
     co := None; no2 := None; so2 := None; o3 := None |}.

End Prediction.

(** ** [app/services/alert_service.py] *)

Module AlertSvc.

(** *** The collaborators *)

(** [float(s)] and [geodesic(a, b).kilometers] are library calls; each is
    [None] where the call raises [ValueError] (a string that is no number,
    a latitude out of range) or where [float] gives a value that is not
    finite, which [geodesic] then refuses with [ValueError]. *)
Record Geo := {
  py_float : pystr -> option Q;
  geodesic_km : Q * Q -> Q * Q -> option Q
}.

Inductive Channel := Push | Email | Sms | GovEmail.

(** The body of every [_send_*] method stands for a call to a delivery
    service.  [Providers] says, per channel, recipient and alert, whether
    that body runs to its [return True] ([Return tt]) or raises. *)
Definition Providers := Channel -> User -> EmergencyAlert -> exn_or unit.

(** One send the dispatcher started. *)
Definition Attempt : Type := Channel * User.

(** *** [_find_affected_users] *)

(** [user.notification_radius or 50] *)
Definition user_radius (user : User) : Q :=
  match notification_radius user with
  | Some r => if (r =? 0)%Z then 50 else inject_Z r
  | None => 50
  end.

(** [alert.radius or 50] *)
Definition alert_radius (alert : EmergencyAlert) : Q :=
  or_default (radius alert) 50.

Definition effective_radius (alert : EmergencyAlert) (user : User) : Q :=
  py_max (alert_radius alert) (user_radius user).

(** The body of the loop's [try]: [None] is a [ValueError] or [TypeError],
    on which the loop goes on to the next user. *)
Definition within_radius (g : Geo) (alert : EmergencyAlert) (user : User)
  : option bool :=
  lat ← default_latitude user ≫= py_float g;
  lon ← default_longitude user ≫= py_float g;
  distance ← geodesic_km g (latitude alert, longitude alert) (lat, lon);
  Some (py_le distance (effective_radius alert user)).

(** The query: active users with both coordinates registered. *)
Definition located_users (db : Db) : list User :=
  List.filter
    (fun u => bool_decide (is_active u = Some true)
              && bool_decide (default_latitude u <> None)
              && bool_decide (default_longitude u <> None))
    (users db).

Definition _find_affected_users (g : Geo) (alert : EmergencyAlert) (db : Db)
  : list User :=
  List.filter
    (fun user => match within_radius g alert user with
                 | Some inside => inside
                 | None => false
                 end)
    (located_users db).

(** *** The channels *)

(** Each [_send_*] wraps its body in [try ... except Exception: return
    False], so the call itself never raises. *)
Definition send_via (p : Providers) (c : Channel) (user : User)
  (alert : EmergencyAlert) : exn_or bool :=
  match p c user alert with
  | Return _ => Return true
  | Raise _ => Return false
  end.

Definition _send_push_notification p := send_via p Push.
Definition _send_email_notification p := send_via p Email.
Definition _send_government_email p := send_via p GovEmail.

(** The text [_send_sms_notification] composes before its length check
    (the first character is the siren sign, one code point). *)
Definition sms_message (alert : EmergencyAlert) : pystr :=
  [128680%N] ++ lit " " ++ upper (severity_value (severity alert))
  ++ lit " ALERT: " ++ title alert ++ lit ". "
  ++ lit "Location: "
  ++ or_default_str (location_name alert) (lit "See details") ++ lit ". "
  ++ lit "Contact: "
  ++ or_default_str (contact_info alert) (lit "Emergency Services") ++ lit ". "
  ++ lit "Alert ID: " ++ alert_id alert.

(** [sms_content["message"]] after the length check. *)
Definition sms_content (alert : EmergencyAlert) : pystr :=
  let message := sms_message alert in
  if (160 <? length message)%nat
  then slice_to 157 message ++ lit "..."
  else message.

Definition _send_sms_notification p := send_via p Sms.

(** *** The dispatcher's state *)

(** The result dictionary; [channels_used] is [None] where the key is
    absent. *)
Record NotificationResults := {
  notifications_sent : nat;
  errors : list pystr;
  channels_used : option (list pystr)
}.

(** The dictionary the loop mutates, and the sends started so far. *)
Record St := {
  results : NotificationResults;
  trace : list Attempt
}.

(** A step of the loop body: it may raise, and what it did to the state
    before raising stays done. *)
Definition M (A : Type) : Type := St -> St * exn_or A.

Definition ret {A} (a : A) : M A := fun st => (st, Return a).

Definition bind {A B} (m : M A) (k : A -> M B) : M B :=
  fun st =>
    match m st with
    | (st', Return a) => k a st'
    | (st', Raise e) => (st', Raise e)
    end.

Notation "x <- m ;; k" := (bind m (fun x => k))
  (at level 100, m at next level, right associativity).
Notation "m ;;; k" := (bind m (fun _ => k))
  (at level 100, right associativity).

(** Calling a channel: the send is logged, then its outcome returned. *)
Definition call (c : Channel) (user : User) (r : exn_or bool) : M bool :=
  fun st =>
    ({| results := results st; trace := trace st ++ [(c, user)] |}, r).

(** [if name not in used: used.append(name)] *)
Definition add_name (name : pystr) (used : list pystr) : list pystr :=
  if bool_decide (name ∈ used) then used else used ++ [name].

(** [notifications_sent += 1], and the channel's name appended to
    [channels_used] unless it is there. *)
Definition sent_once_more (name : pystr) (r : NotificationResults)
  : NotificationResults :=
  {| notifications_sent := S (notifications_sent r);
     errors := errors r;
     channels_used := Some (add_name name (default [] (channels_used r))) |}.

Definition record_sent (name : pystr) : M unit :=
  fun st =>
    ({| results := sent_once_more name (results st); trace := trace st |},
     Return tt).

Definition when (b : bool) (m : M unit) : M unit :=
  if b then m else ret tt.

(** The body of the [try] inside the loop over the affected users. *)
Definition notify_user (p : Providers) (alert : EmergencyAlert) (user : User)
  : M unit :=
  ok <- call Push user (_send_push_notification p user alert) ;;
  when ok (record_sent (lit "push")) ;;;
  ok <- (if truthy_str (email user)
         then call Email user (_send_email_notification p user alert)
         else ret false) ;;
  when ok (record_sent (lit "email")) ;;;
  ok <- (if is_critical (severity alert) && truthy_opt_str (phone_number user)
         then call Sms user (_send_sms_notification p user alert)
         else ret false) ;;
  when ok (record_sent (lit "sms")).

(** The loop's [except Exception as e]: the message joins [errors]. *)
Definition error_msg (user : User) (e : pystr) : pystr :=
  lit "Error sending notification to user " ++ str_of_Z (id user)
  ++ lit ": " ++ e.

Definition try_notify_user (p : Providers) (alert : EmergencyAlert)
  (st : St) (user : User) : St :=
  match notify_user p alert user st with
  | (st', Return _) => st'
  | (st', Raise e) =>
      let r := results st' in
      {| results :=
           {| notifications_sent := notifications_sent r;
              errors := errors r ++ [error_msg user e];
              channels_used := channels_used r |};
         trace := trace st' |}
  end.

(** *** [_notify_government_agencies] *)

Definition government_users (db : Db) : list User :=
  List.filter
    (fun u => bool_decide (is_active u = Some true)
              && role_in (role u) [GOVERNMENT; EMERGENCY_RESPONDER])
    (users db).

Definition notify_agency (p : Providers) (alert : EmergencyAlert) (user : User)
  : M unit :=
  _ <- call GovEmail user (_send_government_email p user alert) ;;
  _ <- call Push user (_send_push_notification p user alert) ;;
  ret tt.

(** An exception for one agency user is logged and the loop goes on.  The
    list [government_webhooks] that follows the loop in the source is
    empty, so no webhook is called. *)
Definition _notify_government_agencies (p : Providers) (alert : EmergencyAlert)
  (db : Db) (st : St) : St :=
  fold_left (fun st user => fst (notify_agency p alert user st))
            (government_users db) st.

(** *** [send_alert_notifications] *)

Definition initial_results : NotificationResults :=
  {| notifications_sent := 0; errors := []; channels_used := Some [] |}.

(** The outer [except Exception] has nothing to catch: both helpers
    handle every exception themselves, and the loop has its own handler. *)
Definition send_alert_notifications (p : Providers) (g : Geo)
  (alert : EmergencyAlert) (db : Db) : NotificationResults * list Attempt :=
  let affected_users := _find_affected_users g alert db in
  match affected_users with
  | [] => ({| notifications_sent := 0; errors := []; channels_used := None |}, [])
  | _ :: _ =>
      let st := fold_left (try_notify_user p alert) affected_users
                          {| results := initial_results; trace := [] |} in
      let st' := _notify_government_agencies p alert db st in
      (results st, trace st')
  end.

(** *** Vocabulary for the statements *)

(** Whether the provider behind a channel delivers. *)
Definition delivered (p : Providers) (alert : EmergencyAlert) (a : Attempt)
  : bool :=
  match p (fst a) (snd a) alert with
  | Return _ => true
  | Raise _ => false
  end.

(** The sends the recipient loop starts for one user. *)
Definition user_attempts (alert : EmergencyAlert) (user : User) : list Attempt :=
  [(Push, user)]
  ++ (if truthy_str (email user) then [(Email, user)] else [])
  ++ (if is_critical (severity alert) && truthy_opt_str (phone_number user)
      then [(Sms, user)] else []).

(** The sends the agency loop starts for one user. *)
Definition agency_attempts (user : User) : list Attempt :=
  [(GovEmail, user); (Push, user)].

Definition successes (p : Providers) (alert : EmergencyAlert)
  (l : list Attempt) : nat :=
  length (List.filter (delivered p alert) l).

(** The name under which a channel enters [channels_used]. *)
Definition channel_name (c : Channel) : pystr :=
  match c with
  | Push => lit "push"
  | Email => lit "email"
  | Sms => lit "sms"
  | GovEmail => lit "government_email"
  end.

(** What one send of the recipient loop does to the state. *)
Definition after_attempt (p : Providers) (alert : EmergencyAlert)
  (st : St) (a : Attempt) : St :=
  {| results := if delivered p alert a
                then sent_once_more (channel_name (fst a)) (results st)
                else results st;
     trace := trace st ++ [a] |}.

(** Every send the recipient loop starts in a pass. *)
Definition recipient_sends (g : Geo) (alert : EmergencyAlert) (db : Db)
  : list Attempt :=
  flat_map (user_attempts alert) (_find_affected_users g alert db).

(** The names in [channels_used] after the sends [l], starting from
    [used]. *)
Definition used_names (p : Providers) (alert : EmergencyAlert)
  (l : list Attempt) (used : list pystr) : list pystr :=
  fold_left (fun used a => if delivered p alert a
                           then add_name (channel_name (fst a)) used
                           else used) l used.

(** What one send of the agency loop does to the state. *)
Definition after_agency_attempt (st : St) (a : Attempt) : St :=
  {| results := results st; trace := trace st ++ [a] |}.

(** A located, active user whose coordinates parse and whose distance to
    the alert is [d]. *)
Definition located_at (g : Geo) (alert : EmergencyAlert) (db : Db) (u : User)
  (d : Q) : Prop :=
  In u (users db) /\ is_active u = Some true
  /\ exists slat slon lat lon,
       default_latitude u = Some slat /\ default_longitude u = Some slon
       /\ py_float g slat = Some lat /\ py_float g slon = Some lon
       /\ geodesic_km g (latitude alert, longitude alert) (lat, lon) = Some d.

(** The effective radius as the specification words it: each radius "if
    set", else 50. *)
Definition stated_radius (alert : EmergencyAlert) (user : User) : Q :=
  py_max (match radius alert with Some r => r | None => 50 end)
         (match notification_radius user with
          | Some r => inject_Z r
          | None => 50
          end).

End AlertSvc.

(** ** [app/api/v1/endpoints/emergency.py] *)

Module Endpoint.

(** [app/schemas/emergency.py], class [EmergencyAlertUpdate].  Every field
    is optional: the outer [option] says whether the request set the field
    ([dict(exclude_unset=True)] keeps only those), the inner one is the
    value, which may be [null]. *)
Record EmergencyAlertUpdate := {
  u_title : option (option pystr);
  u_description : option (option pystr);
  u_severity : option (option AlertSeverity);
  u_status : option (option AlertStatus);
  u_end_time : option (option Z);
  u_expires_at : option (option Z);
  u_contact_info : option (option pystr)
}.

Inductive Response :=
| Http200 (alert : EmergencyAlert)
| Http403
| Http404
| Http500.

Inductive BackgroundTask :=
| BlockchainUpdate (alert : EmergencyAlert)
| UpdateNotifications (alert : EmergencyAlert).

(** What [setattr] leaves in a nullable column. *)
Definition set_nullable {A} (field : option (option A)) (old : option A)
  : option A :=
  match field with
  | Some v => v
  | None => old
  end.

(** What [setattr] leaves in a [nullable=False] column: [None] is a NULL
    there, which the commit refuses. *)
Definition set_required {A} (field : option (option A)) (old : A)
  : option A :=
  match field with
  | Some v => v
  | None => Some old
  end.

(** The [setattr] loop, [alert.updated_at = utcnow()] and the row as
    [db.commit()] writes it; [None] when the commit raises on a NULL in a
    required column. *)
Definition updated_row (alert : EmergencyAlert) (upd : EmergencyAlertUpdate)
  (now : Z) : option EmergencyAlert :=
  new_title ← set_required (u_title upd) (title alert);
  new_description ← set_required (u_description upd) (description alert);
  new_severity ← set_required (u_severity upd) (severity alert);
  Some {| alert_id := alert_id alert;
          title := new_title;
          description := new_description;
          severity := new_severity;
          status := set_nullable (u_status upd) (status alert);
          latitude := latitude alert;
          longitude := longitude alert;
          radius := radius alert;
          location_name := location_name alert;
          risk_type := risk_type alert;
          end_time := set_nullable (u_end_time upd) (end_time alert);
          expires_at := set_nullable (u_expires_at upd) (expires_at alert);
          contact_info := set_nullable (u_contact_info upd) (contact_info alert);
          updated_at := Some now |}.

(** [alert.dict()]: [EmergencyAlert] extends the declarative [Base], whose
    instances have no [dict] method ([to_dict] belongs to [BaseModel],
    which the class does not extend), so the call raises. *)
Definition orm_dict (alert : EmergencyAlert) : exn_or EmergencyAlert :=
  Raise (lit "AttributeError").

Definition may_manage_alerts (user : User) : bool :=
  role_in (role user) [GOVERNMENT; EMERGENCY_RESPONDER; ADMIN].

(** [update_emergency_alert]: the database after the call, the response,
    and the background tasks it queued. *)
Definition update_emergency_alert (db : Db) (current_user : User)
  (id : pystr) (alert_update : EmergencyAlertUpdate) (now : Z)
  : Db * Response * list BackgroundTask :=
  if negb (may_manage_alerts current_user) then (db, Http403, [])
  else
    match alerts db !! id with
    | None => (db, Http404, [])
    | Some alert =>
        match updated_row alert alert_update now with
        | None => (db, Http500, [])   (* commit raised; rolled back *)
        | Some alert' =>
            let db' := {| alerts := <[id := alert']> (alerts db);
                          users := users db |} in
            match orm_dict alert' with
            | Raise _ => (db', Http500, [])   (* rollback after the commit *)
            | Return payload =>
                let tasks := [BlockchainUpdate payload] in
                let tasks :=
                  if bool_decide (u_status alert_update <> None)
                  then tasks ++ [UpdateNotifications alert']
                  else tasks in
                (db', Http200 alert', tasks)
            end
        end
    end.

(** The alert table after a sequence of update requests. *)
Record Request := {
  req_user : User;
  req_id : pystr;
  req_update : EmergencyAlertUpdate;
  req_now : Z
}.

Definition serve (db : Db) (r : Request) : Db :=
  fst (fst (update_emergency_alert db (req_user r) (req_id r)
                                   (req_update r) (req_now r))).

Definition serve_all (db : Db) (rs : list Request) : Db :=
  fold_left serve rs db.

Definition is_terminal (s : option AlertStatus) : bool :=
  bool_decide (s = Some RESOLVED \/ s = Some CANCELLED).

Definition stored_status (db : Db) (id : pystr) : option (option AlertStatus) :=
  status <$> alerts db !! id.

End Endpoint.

(** ** Concrete alerts, users and collaborators used in the examples *)

Module Scenario.
Import AlertSvc Endpoint.

(** [float] on the two coordinate strings of the examples. *)
Definition example_float (s : pystr) : option Q :=
  if bool_decide (s = lit "0") then Some 0
  else if bool_decide (s = lit "0.1") then Some (1 # 10)
  else None.

(** The geodesic distance at the points of the examples: a point is 0 km
    from itself, and (0, 0) is 11.132 km from (0, 0.1). *)
Definition example_geodesic (a b : Q * Q) : option Q :=
  if Qeq_bool (fst a) (fst b) && Qeq_bool (snd a) (snd b) then Some 0
  else if Qeq_bool (fst a) 0 && Qeq_bool (snd a) 0
          && Qeq_bool (fst b) 0 && Qeq_bool (snd b) (1 # 10)
       then Some (11132 # 1000)
       else None.

Definition example_geo : Geo :=
  {| py_float := example_float; geodesic_km := example_geodesic |}.

(** Providers that all fail, and providers that all deliver. *)
Definition all_fail : Providers := fun _ _ _ => Raise (lit "timeout").
Definition all_deliver : Providers := fun _ _ _ => Return tt.

(** An alert at (0, 0). *)
Definition alert_at_origin (sev : AlertSeverity) (st : AlertStatus)
  (r : option Q) : EmergencyAlert :=
  {| alert_id := lit "ALERT-20240101-ABCD1234";
     title := lit "River flood";
     description := lit "The river is above its banks";
     severity := sev;
     status := Some st;
     latitude := 0;
     longitude := 0;
     radius := r;
     location_name := None;
     risk_type := Some (lit "flood");
     end_time := None;
     expires_at := None;
     contact_info := None;
     updated_at := None |}.

(** A citizen 11 km east of the origin, with e-mail and phone, whose own
    notification radius is 5 km. *)
Definition citizen_nearby : User :=
  {| id := 1;
     email := lit "ana@example.org";
     phone_number := Some (lit "+15550100100");
     role := Some CITIZEN;
     is_active := Some true;
     default_latitude := Some (lit "0");
     default_longitude := Some (lit "0.1");
     notification_radius := Some 5%Z |}.

(** A government user with e-mail and phone and no registered location. *)
Definition agency_user : User :=
  {| id := 2;
     email := lit "duty@agency.example";
     phone_number := Some (lit "+15550100200");
     role := Some GOVERNMENT;
     is_active := Some true;
     default_latitude := None;
     default_longitude := None;
     notification_radius := None |}.

(** An alert whose title alone has 200 characters. *)
Definition long_titled : EmergencyAlert :=
  {| alert_id := lit "ALERT-20240101-ABCD1234";
     title := repeat 65%N 200;
     description := lit "d";
     severity := CRITICAL;
     status := Some ACTIVE;
     latitude := 0;
     longitude := 0;
     radius := None;
     location_name := None;
     risk_type := None;
     end_time := None;
     expires_at := None;
     contact_info := None;
     updated_at := None |}.

Definition db_of (us : list User) (al : list EmergencyAlert) : Db :=
  {| alerts := list_to_map (List.map (fun a => (alert_id a, a)) al);
     users := us |}.

(** A request that sets nothing but the status. *)
Definition set_status (s : AlertStatus) : EmergencyAlertUpdate :=
  {| u_title := None; u_description := None; u_severity := None;
     u_status := Some (Some s); u_end_time := None; u_expires_at := None;
     u_contact_info := None |}.

End Scenario.

(** ** [app/services/ai_prediction.py]: explanations, recommendations,
    features and the location assessment *)

Module Explain.
Import Prediction.

Definition risk_types : list string :=
  ["flood"; "drought"; "storm"; "heat_wave"; "cold_wave"; "wildfire"].

(** [risk_predictions[i]]: [None] is an [IndexError]. *)
Definition at_index (row : list Q) (i : nat) : option Q := nth_error row i.

(** The branch of the [if risk_type == ...: ... elif ...] chain of
    [_generate_recommendations]. *)
Definition actions_for (risk_type : string) : list string :=
  if String.eqb risk_type "flood" then
    ["Monitor water levels in nearby rivers and streams";
     "Prepare emergency evacuation routes";
     "Secure outdoor equipment and furniture"]
  else if String.eqb risk_type "drought" then
    ["Implement water conservation measures";
     "Monitor agricultural water needs";
     "Prepare alternative water sources"]
  else if String.eqb risk_type "storm" then
    ["Secure loose outdoor objects";
     "Check emergency supply kits";
     "Monitor weather updates frequently"]
  else if String.eqb risk_type "heat_wave" then
    ["Stay hydrated and avoid outdoor activities";
     "Check on vulnerable community members";
     "Ensure cooling systems are operational"]
  else if String.eqb risk_type "cold_wave" then
    ["Prepare heating systems and insulation";
     "Protect water pipes from freezing";
     "Ensure adequate food and fuel supplies"]
  else if String.eqb risk_type "wildfire" then
    ["Clear vegetation around properties";
     "Prepare evacuation plans and go-bags";
     "Monitor fire weather warnings"]
  else [].

(** The loop [for i, risk_type in enumerate(risk_types)] of
    [_generate_recommendations], from index [i] on. *)
Fixpoint recommend_from (i : nat) (types : list string) (row : list Q)
  (recommendations : list string) : exn_or (list string) :=
  match types with
  | [] => Return recommendations
  | risk_type :: rest =>
      match at_index row i with
      | None => Raise (lit "IndexError")
      | Some score =>
          recommend_from (S i) rest row
            (if py_gt score (7 # 10)
             then recommendations ++ actions_for risk_type
             else recommendations)
      end
  end.

(** [_generate_recommendations].  The source returns [list(set(...))],
    whose order is not fixed, so the model returns the set. *)
Definition _generate_recommendations (row : list Q) : gset string :=
  match recommend_from 0 risk_types row [] with
  | Return recommendations =>
      list_to_set
        (match recommendations with
         | [] => ["Continue monitoring weather conditions"]
         | _ :: _ => recommendations
         end)
  | Raise _ => {[ "Monitor weather conditions and stay informed" ]}
  end.

(** An entry of [primary_factors]. *)
Record Factor := {
  factor_type : string;
  probability : Q;
  factor_severity : string
}.

(** The dictionary [_generate_risk_explanations] returns when nothing
    raises; the keys of [contributing_conditions] are in insertion
    order. *)
Record Explanation := {
  primary_factors : list Factor;
  contributing_conditions : list (string * Q);
  confidence_level : string
}.

(** [np.max]: it raises [ValueError] on an empty array. *)
Definition np_max (row : list Q) : exn_or Q :=
  match row with
  | [] => Raise (lit "ValueError")
  | x :: rest => Return (fold_left py_max rest x)
  end.

(** The loop of [_generate_risk_explanations], from index [i] on. *)
Fixpoint factors_from (i : nat) (types : list string) (row : list Q)
  (factors : list Factor) : exn_or (list Factor) :=
  match types with
  | [] => Return factors
  | risk_type :: rest =>
      match at_index row i with
      | None => Raise (lit "IndexError")
      | Some score =>
          factors_from (S i) rest row
            (if py_gt score (5 # 10)
             then factors
                  ++ [{| factor_type := risk_type;
                         probability := score;
                         factor_severity :=
                           if py_gt score (8 # 10) then "high" else "moderate" |}]
             else factors)
      end
  end.

Definition condition (name : string) (reading : option Q)
  : list (string * Q) :=
  match if_truthy reading with
  | Some x => [(name, x)]
  | None => []
  end.

(** [_generate_risk_explanations]; [None] is the dictionary
    [{"error": ...}] of its handler. *)
Definition _generate_risk_explanations (cd : ClimateData) (row : list Q)
  : option Explanation :=
  match np_max row with
  | Raise _ => None
  | Return highest =>
      match factors_from 0 risk_types row [] with
      | Raise _ => None
      | Return factors =>
          Some {| primary_factors := factors;
                  contributing_conditions :=
                    condition "temperature" (temperature cd)
                    ++ condition "precipitation" (precipitation cd)
                    ++ condition "wind_speed" (wind_speed cd);
                  confidence_level :=
                    if py_gt highest (7 # 10) then "high" else "medium" |}
      end
  end.

(** [_prepare_weather_features]: one row of ten features per
    observation. *)
Definition weather_feature_vector (data : ClimateData) : list Q :=
  [or_default (temperature data) 0;
   or_default (humidity data) 0;
   or_default (pressure data) (101325 # 100);
   or_default (wind_speed data) 0;
   or_default (wind_direction data) 0;
   or_default (precipitation data) 0;
   or_default (visibility data) 10;
   or_default (cloud_cover data) 0;
   or_default (uv_index data) 0;
   or_default (pm25 data) 0].

Definition _prepare_weather_features (climate_data : list ClimateData)
  : list (list Q) :=
  List.map weather_feature_vector climate_data.

(** [_generate_default_location_risk] *)
Definition _generate_default_location_risk : RiskAssessment :=
  {| climate_data_id := 0;
     flood_risk := 1 # 10;
     drought_risk := 1 # 10;
     storm_risk := 1 # 10;
     heat_wave_risk := 1 # 10;
     cold_wave_risk := 1 # 10;
     wildfire_risk := 1 # 10;
     overall_risk := 1 # 10;
     model_version := "default_v1.0";
     confidence_score := 5 # 10;
     prediction_horizon := 24 |}.

(** [Field(ge=0, le=1)] of [app/schemas/climate.py]. *)
Definition in_unit_range (x : Q) : bool := py_le 0 x && py_le x 1.

(** The validation [RiskAssessmentResponse(...)] runs on its arguments:
    the seven scores and the confidence in [0, 1], the horizon in
    [1, 168], the version of at most 50 characters. *)
Definition response_validates (r : RiskAssessment) : bool :=
  forallb in_unit_range
    [flood_risk r; drought_risk r; storm_risk r; heat_wave_risk r;
     cold_wave_risk r; wildfire_risk r; overall_risk r; confidence_score r]
  && (1 <=? prediction_horizon r)%Z && (prediction_horizon r <=? 168)%Z
  && (String.length (model_version r) <=? 50)%nat.

(** The temporary [ClimateData] built from the first forecast point: the
    ten readings the forecast carries, the other columns unset. *)
Definition temp_climate_data (first_forecast : ClimateData) : ClimateData :=
  {| cd_id := 0;
     station_id := 0;
     timestamp := timestamp first_forecast;
     temperature := temperature first_forecast;
     humidity := humidity first_forecast;
     pressure := pressure first_forecast;
     wind_speed := wind_speed first_forecast;
     wind_direction := wind_direction first_forecast;
     precipitation := precipitation first_forecast;
     visibility := visibility first_forecast;
     cloud_cover := cloud_cover first_forecast;
     uv_index := uv_index first_forecast;
     pm25 := pm25 first_forecast;
     pm10 := None; co := None; no2 := None; so2 := None; o3 := None |}.

(** [generate_location_risk_assessment].  A forecast point has the
    readings of a [ClimateData] row and is modelled as one.  A response
    that fails validation raises, and the handler returns the default. *)
Definition generate_location_risk_assessment (model : LearnedModel)
  (forecast_data : list ClimateData) : RiskAssessment :=
  match forecast_data with
  | [] => _generate_default_location_risk
  | first_forecast :: _ =>
      let risk_assessment :=
        generate_risk_assessment model (temp_climate_data first_forecast) in
      if response_validates risk_assessment
      then {| climate_data_id := 0;
              flood_risk := flood_risk risk_assessment;
              drought_risk := drought_risk risk_assessment;
              storm_risk := storm_risk risk_assessment;
              heat_wave_risk := heat_wave_risk risk_assessment;
              cold_wave_risk := cold_wave_risk risk_assessment;
              wildfire_risk := wildfire_risk risk_assessment;
              overall_risk := overall_risk risk_assessment;
              model_version := model_version risk_assessment;
              confidence_score := confidence_score risk_assessment;
              prediction_horizon := prediction_horizon risk_assessment |}
      else _generate_default_location_risk
  end.

(** Two observations whose ten forecast readings agree up to the
    difference between a missing reading and a reading of 0. *)
Definition same_nonzero_readings (a b : ClimateData) : Prop :=
  if_truthy (temperature a) = if_truthy (temperature b)
  /\ if_truthy (humidity a) = if_truthy (humidity b)
  /\ if_truthy (pressure a) = if_truthy (pressure b)
  /\ if_truthy (wind_speed a) = if_truthy (wind_speed b)
  /\ if_truthy (wind_direction a) = if_truthy (wind_direction b)
  /\ if_truthy (precipitation a) = if_truthy (precipitation b)
  /\ if_truthy (visibility a) = if_truthy (visibility b)
  /\ if_truthy (cloud_cover a) = if_truthy (cloud_cover b)
  /\ if_truthy (uv_index a) = if_truthy (uv_index b)
  /\ if_truthy (pm25 a) = if_truthy (pm25 b).

(** A risk type with its score, and the test [score > threshold]. *)
Definition scored_above (threshold : Q) (typed : string * Q) : bool :=
  py_gt (snd typed) threshold.

(** The entry of [primary_factors] for a risk type and its score. *)
Definition make_factor (typed : string * Q) : Factor :=
  {| factor_type := fst typed;
     probability := snd typed;
     factor_severity :=
       if py_gt (snd typed) (8 # 10) then "high" else "moderate" |}.

(** The risk types, in order, whose score in [row] is above
    [threshold]. *)
Definition types_above (threshold : Q) (row : list Q) : list string :=
  List.map fst
    (List.filter (fun '(_, score) => py_gt score threshold)
                 (combine risk_types row)).

End Explain.

(** ** [app/services/alert_service.py]: the update pass *)

Module UpdatePass.
Import AlertSvc.

Definition status_value (s : AlertStatus) : pystr :=
  match s with
  | ACTIVE => lit "active"
  | RESOLVED => lit "resolved"
  | CANCELLED => lit "cancelled"
  end.

(** [_get_update_message].  [alert.status.value] raises
    [AttributeError] on a NULL status; the method has no handler of its
    own.  The three messages start with the check mark, the cross mark and
    the memo sign. *)
Definition _get_update_message (alert : EmergencyAlert) : exn_or pystr :=
  match status alert with
  | None => Raise (lit "'NoneType' object has no attribute 'value'")
  | Some s =>
      Return
        (if bool_decide (status_value s = lit "resolved") then
           [9989%N] ++ lit " RESOLVED: " ++ title alert
           ++ lit " - The emergency situation has been resolved."
         else if bool_decide (status_value s = lit "cancelled") then
           [10060%N] ++ lit " CANCELLED: " ++ title alert
           ++ lit " - The emergency alert has been cancelled."
         else
           [128221%N] ++ lit " UPDATE: " ++ title alert
           ++ lit " - Alert information has been updated.")
  end.

(** The delivery service behind [_send_update_push_notification]:
    whether the body of its [try] runs to [return True] or raises. *)
Definition UpdateProvider := User -> EmergencyAlert -> pystr -> exn_or unit.

(** [_send_update_push_notification]: its handler turns an exception into
    [False]. *)
Definition _send_update_push_notification (p : UpdateProvider) (user : User)
  (alert : EmergencyAlert) (update_message : pystr) : exn_or bool :=
  match p user alert update_message with
  | Return _ => Return true
  | Raise _ => Return false
  end.

Definition update_error_msg (user : User) (e : pystr) : pystr :=
  lit "Error sending update notification to user " ++ str_of_Z (id user)
  ++ lit ": " ++ e.

(** The body of the loop, with its [try/except]: the result dictionary
    and the users an update push was started for. *)
Definition update_one (p : UpdateProvider) (alert : EmergencyAlert)
  (update_message : pystr) (st : NotificationResults * list User)
  (user : User) : NotificationResults * list User :=
  let '(r, pushed) := st in
  match _send_update_push_notification p user alert update_message with
  | Return true =>
      ({| notifications_sent := S (notifications_sent r);
          errors := errors r;
          channels_used := channels_used r |}, pushed ++ [user])
  | Return false => (r, pushed ++ [user])
  | Raise e =>
      ({| notifications_sent := notifications_sent r;
          errors := errors r ++ [update_error_msg user e];
          channels_used := channels_used r |}, pushed ++ [user])
  end.

(** [send_alert_update_notifications]: the result dictionary (it has no
    [channels_used] key) and the users an update push was started for.
    An exception of [_get_update_message] reaches the outer handler. *)
Definition send_alert_update_notifications (p : UpdateProvider) (g : Geo)
  (alert : EmergencyAlert) (db : Db) : NotificationResults * list User :=
  let affected_users := _find_affected_users g alert db in
  match _get_update_message alert with
  | Raise e =>
      ({| notifications_sent := 0; errors := [e]; channels_used := None |}, [])
  | Return update_message =>
      fold_left (update_one p alert update_message) affected_users
                ({| notifications_sent := 0; errors := [];
                    channels_used := None |}, [])
  end.

(** The head of every SMS text: the siren sign, the severity in capitals
    and the word ALERT. *)
Definition sms_header (alert : EmergencyAlert) : pystr :=
  [128680%N] ++ lit " " ++ upper (severity_value (severity alert))
  ++ lit " ALERT: ".

(** Whether the update push to a user is delivered. *)
Definition update_delivered (p : UpdateProvider) (alert : EmergencyAlert)
  (update_message : pystr) (user : User) : bool :=
  match p user alert update_message with
  | Return _ => true
  | Raise _ => false
  end.

End UpdatePass.

(** ** [app/api/v1/endpoints/emergency.py]: reading, listing and creating
    alerts *)

Module Listing.
Import AlertSvc Endpoint.

(** [get_emergency_alert]: what the handler returns or raises. *)
Definition get_emergency_alert (db : Db) (id : pystr) : Response :=
  match alerts db !! id with
  | Some alert => Http200 alert
  | None => Http404
  end.

(** The query parameters of [get_emergency_alerts]. *)
Record AlertsQuery := {
  q_latitude : option Q;
  q_longitude : option Q;
  q_radius : option Q;
  q_severity : option AlertSeverity;
  q_status : option AlertStatus;
  q_risk_type : option pystr;
  q_active_only : bool;
  q_limit : nat;
  q_offset : nat
}.

(** SQL's [ILIKE], on a nullable column and a pattern: an operator of the
    database. *)
Definition Ilike := option pystr -> pystr -> bool.

(** The [filter] calls on the query, in source order.  An enum value is
    always true as a condition, a string when it is not empty. *)
Definition status_filter (q : AlertsQuery) (alert : EmergencyAlert) : bool :=
  if q_active_only q then bool_decide (status alert = Some ACTIVE)
  else match q_status q with
       | Some s => bool_decide (status alert = Some s)
       | None => true
       end.

Definition severity_filter (q : AlertsQuery) (alert : EmergencyAlert) : bool :=
  match q_severity q with
  | Some sev => bool_decide (severity alert = sev)
  | None => true
  end.

Definition risk_type_filter (ilike : Ilike) (q : AlertsQuery)
  (alert : EmergencyAlert) : bool :=
  match q_risk_type q with
  | Some (c :: t) => ilike (risk_type alert) (lit "%" ++ (c :: t) ++ lit "%")
  | _ => true
  end.

Definition sql_filter (ilike : Ilike) (q : AlertsQuery)
  (alert : EmergencyAlert) : bool :=
  status_filter q alert && severity_filter q alert
  && risk_type_filter ilike q alert.

(** [alert.radius or radius or 50] *)
Definition listed_radius (q : AlertsQuery) (alert : EmergencyAlert) : Q :=
  or_default (radius alert) (or_default (q_radius q) 50).

(** The loop over the alerts when both coordinates are given; a
    [ValueError] of [geodesic] ends the request. *)
Fixpoint filter_by_location (g : Geo) (user_location : Q * Q)
  (q : AlertsQuery) (alerts : list EmergencyAlert)
  : exn_or (list EmergencyAlert) :=
  match alerts with
  | [] => Return []
  | alert :: rest =>
      match geodesic_km g user_location (latitude alert, longitude alert) with
      | None => Raise (lit "ValueError")
      | Some distance =>
          match filter_by_location g user_location q rest with
          | Raise e => Raise e
          | Return kept =>
              Return (if py_le distance (listed_radius q alert)
                      then alert :: kept else kept)
          end
      end
  end.

(** [alerts[offset:offset + limit]] *)
Definition page (q : AlertsQuery) (alerts : list EmergencyAlert)
  : list EmergencyAlert :=
  firstn (q_limit q) (skipn (q_offset q) alerts).

(** [get_emergency_alerts], over [rows], the rows of the alert table in
    the order of [issued_at] descending (the ordering is the database's).
    [Raise] is the answer 500 of the handler. *)
Definition get_emergency_alerts (g : Geo) (ilike : Ilike)
  (rows : list EmergencyAlert) (q : AlertsQuery)
  : exn_or (list EmergencyAlert) :=
  let alerts := List.filter (sql_filter ilike q) rows in
  match q_latitude q, q_longitude q with
  | Some latitude, Some longitude =>
      match filter_by_location g (latitude, longitude) q alerts with
      | Raise e => Raise e
      | Return filtered_alerts => Return (page q filtered_alerts)
      end
  | _, _ => Return (page q alerts)
  end.

(** The same query at another page. *)
Definition at_page (q : AlertsQuery) (offset limit : nat) : AlertsQuery :=
  {| q_latitude := q_latitude q; q_longitude := q_longitude q;
     q_radius := q_radius q; q_severity := q_severity q;
     q_status := q_status q; q_risk_type := q_risk_type q;
     q_active_only := q_active_only q;
     q_limit := limit; q_offset := offset |}.

(** The same query with another [status] parameter. *)
Definition with_status (q : AlertsQuery) (s : option AlertStatus)
  : AlertsQuery :=
  {| q_latitude := q_latitude q; q_longitude := q_longitude q;
     q_radius := q_radius q; q_severity := q_severity q;
     q_status := s; q_risk_type := q_risk_type q;
     q_active_only := q_active_only q;
     q_limit := q_limit q; q_offset := q_offset q |}.

(** [app/schemas/emergency.py], class [EmergencyAlertCreate]: the fields
    of [EmergencyAlertBase] the modelled alert row holds. *)
Record EmergencyAlertCreate := {
  c_title : pystr;
  c_description : pystr;
  c_severity : AlertSeverity;
  c_latitude : Q;
  c_longitude : Q;
  c_radius : option Q;
  c_location_name : option pystr;
  c_risk_type : option pystr;
  c_end_time : option Z;
  c_expires_at : option Z;
  c_contact_info : option pystr
}.

(** The keys of [alert.dict()]: every field of [EmergencyAlertBase], set
    or not. *)
Definition dict_keys : list string :=
  ["title"; "description"; "severity"; "latitude"; "longitude"; "radius";
   "location_name"; "risk_type"; "risk_score"; "probability"; "start_time";
   "end_time"; "expires_at"; "issuer"; "source"; "contact_info"].

(** The keywords the call [EmergencyAlert(alert_id=..., issuer=...,
    **alert.dict())] spells out. *)
Definition explicit_keywords : list string := ["alert_id"; "issuer"].

(** A call [f(k=..., **d)] raises [TypeError] when a key of [d] repeats a
    keyword that is spelled out: the first such key. *)
Definition repeated_keyword (explicit keys : list string) : option string :=
  List.find (fun k => bool_decide (k ∈ explicit)) keys.

Inductive CreateTask :=
| SubmitToBlockchain (alert : EmergencyAlert)
| SendNotifications (alert : EmergencyAlert).

(** [create_emergency_alert]; [new_id] is the identifier built from the
    date and a UUID.  The column default makes a new alert active, and the
    unique index refuses an identifier that is taken. *)
Definition create_emergency_alert (db : Db) (current_user : User)
  (alert : EmergencyAlertCreate) (new_id : pystr)
  : Db * Response * list CreateTask :=
  if negb (may_manage_alerts current_user) then (db, Http403, [])
  else
    match repeated_keyword explicit_keywords dict_keys with
    | Some _ => (db, Http500, [])   (* TypeError; rolled back *)
    | None =>
        let db_alert :=
          {| alert_id := new_id;
             title := c_title alert;
             description := c_description alert;
             severity := c_severity alert;
             status := Some ACTIVE;
             latitude := c_latitude alert;
             longitude := c_longitude alert;
             radius := c_radius alert;
             location_name := c_location_name alert;
             risk_type := c_risk_type alert;
             end_time := c_end_time alert;
             expires_at := c_expires_at alert;
             contact_info := c_contact_info alert;
             updated_at := None |} in
        match alerts db !! new_id with
        | Some _ => (db, Http500, [])   (* commit raised; rolled back *)
        | None =>
            let db' := {| alerts := <[new_id := db_alert]> (alerts db);
                          users := users db |} in
            match orm_dict db_alert with
            | Raise _ => (db', Http500, [])
            | Return payload =>
                (db', Http200 db_alert,
                 [SubmitToBlockchain payload; SendNotifications db_alert])
            end
        end
    end.

(** Whether an alert is within its listed radius of a point. *)
Definition listed_near (g : Geo) (q : AlertsQuery) (user_location : Q * Q)
  (alert : EmergencyAlert) : bool :=
  match geodesic_km g user_location (latitude alert, longitude alert) with
  | Some distance => py_le distance (listed_radius q alert)
  | None => false
  end.

(** The alerts a query selects, before the page is cut out. *)
Definition unpaged (g : Geo) (ilike : Ilike) (rows : list EmergencyAlert)
  (q : AlertsQuery) : exn_or (list EmergencyAlert) :=
  match q_latitude q, q_longitude q with
  | Some lat, Some lon =>
      filter_by_location g (lat, lon) q (List.filter (sql_filter ilike q) rows)
  | _, _ => Return (List.filter (sql_filter ilike q) rows)
  end.

(** Every alert is stored under its own identifier. *)
Definition keys_consistent (db : Db) : Prop :=
  forall k alert, alerts db !! k = Some alert -> alert_id alert = k.

End Listing.

(* ===================================================================== *)
(** * Part II: lemmas and theorems *)
(* ===================================================================== *)

(** ** Comparisons, [min] and [max] *)

Section PyFacts.

Implicit Types a b c : Q.

Lemma py_gt_true a b : py_gt a b = true <-> b < a.
Proof.
  unfold py_gt. rewrite negb_true_iff.
  destruct (Qle_bool a b) eqn:E.
  - apply Qle_bool_iff in E. split; [discriminate | intros H; lra].
  - split; [intros _ | reflexivity].
    destruct (Qlt_le_dec b a) as [H | H]; [exact H |].
    apply Qle_bool_iff in H. congruence.
Qed.

Lemma py_gt_false a b : py_gt a b = false <-> a <= b.
Proof. unfold py_gt. rewrite negb_false_iff. apply Qle_bool_iff. Qed.

Lemma py_lt_true a b : py_lt a b = true <-> a < b.
Proof. apply (py_gt_true b a). Qed.

Lemma py_lt_false a b : py_lt a b = false <-> b <= a.
Proof. apply (py_gt_false b a). Qed.

Lemma py_le_true a b : py_le a b = true <-> a <= b.
Proof. apply Qle_bool_iff. Qed.

Lemma py_le_false a b : py_le a b = false <-> b < a.
Proof.
  unfold py_le. split; intros H.
  - apply py_gt_true. unfold py_gt. now rewrite H.
  - apply py_gt_true in H. unfold py_gt in H. now apply negb_true_iff.
Qed.

Lemma div_nonneg a b : 0 <= a -> 0 < b -> 0 <= a / b.
Proof.
  intros Ha Hb. apply Qle_shift_div_l; [exact Hb |]. lra.
Qed.

Lemma py_min_le_l a b : py_min a b <= a.
Proof.
  unfold py_min. destruct (py_lt b a) eqn:E; [| lra].
  apply py_lt_true in E. lra.
Qed.

Lemma py_min_glb a b c : c <= a -> c <= b -> c <= py_min a b.
Proof. unfold py_min. destruct (py_lt b a); auto. Qed.

Lemma py_max_ge_l a b : a <= py_max a b.
Proof.
  unfold py_max. destruct (py_gt b a) eqn:E; [| lra].
  apply py_gt_true in E. lra.
Qed.

Lemma py_max_ge_r a b : b <= py_max a b.
Proof.
  unfold py_max. destruct (py_gt b a) eqn:E; [lra |].
  now apply py_gt_false in E.
Qed.

Lemma py_max_lub a b c : a < c -> b < c -> py_max a b < c.
Proof. unfold py_max. destruct (py_gt b a); auto. Qed.

End PyFacts.

Create HintDb pyq.
#[local] Hint Resolve py_min_le_l py_min_glb py_max_ge_l py_max_ge_r : pyq.

(** ** The risk scoring engine *)

Module PredictionFacts.
Import Prediction.

(** Turn the boolean tests of a rule into facts about the readings. *)
Ltac reflect_tests :=
  repeat match goal with
  | H : (_ && _) = true |- _ => apply andb_true_iff in H; destruct H
  | H : py_gt _ _ = true |- _ => apply py_gt_true in H
  | H : py_gt _ _ = false |- _ => apply py_gt_false in H
  | H : py_lt _ _ = true |- _ => apply py_lt_true in H
  | H : py_lt _ _ = false |- _ => apply py_lt_false in H
  end.

(** A clamped term [min(1.0, x)] with [x] not negative is a score. *)
Lemma clamp_unit x : 0 <= x -> unit_interval (py_min 1 x).
Proof.
  intros Hx. split.
  - apply py_min_glb; [lra | exact Hx].
  - apply py_min_le_l.
Qed.

Lemma zero_unit : unit_interval 0.
Proof. split; lra. Qed.

#[local] Hint Resolve clamp_unit zero_unit : pyq.

Lemma temperature_risks_unit cd :
  unit_interval (fst (temperature_risks cd))
  /\ unit_interval (snd (temperature_risks cd)).
Proof.
  unfold temperature_risks.
  destruct (if_truthy (temperature cd)) as [t |]; [| auto with pyq].
  destruct (py_gt t 35) eqn:Hhot.
  { reflect_tests. split; [apply clamp_unit, div_nonneg; lra | auto with pyq]. }
  destruct (py_lt t (-10)) eqn:Hcold; [| auto with pyq].
  reflect_tests. split; [auto with pyq | apply clamp_unit, div_nonneg; lra].
Qed.

Lemma drought_cases cd :
  snd (precipitation_risks cd) = 0 \/ snd (precipitation_risks cd) = 3 # 10.
Proof.
  unfold precipitation_risks.
  destruct (if_truthy (precipitation cd)) as [p |]; [| now left].
  destruct (py_gt p 50); [now left |].
  destruct (py_lt p 1); [now right | now left].
Qed.

Lemma precipitation_risks_unit cd :
  unit_interval (fst (precipitation_risks cd))
  /\ unit_interval (snd (precipitation_risks cd)).
Proof.
  split.
  - unfold precipitation_risks.
    destruct (if_truthy (precipitation cd)) as [p |]; [| auto with pyq].
    destruct (py_gt p 50) eqn:Hwet.
    { reflect_tests. apply clamp_unit, div_nonneg; lra. }
    destruct (py_lt p 1); auto with pyq.
  - destruct (drought_cases cd) as [-> | ->]; split; lra.
Qed.

Lemma wind_risk_unit cd : unit_interval (wind_risk cd).
Proof.
  unfold wind_risk.
  destruct (if_truthy (wind_speed cd)) as [w |]; [| auto with pyq].
  destruct (py_gt w 15) eqn:Hwind; [| auto with pyq].
  reflect_tests. apply clamp_unit, div_nonneg; lra.
Qed.

Lemma humidity_temperature_risk_unit cd :
  unit_interval (humidity_temperature_risk cd).
Proof.
  unfold humidity_temperature_risk.
  destruct (if_truthy (humidity cd)) as [h |]; [| auto with pyq].
  destruct (if_truthy (temperature cd)) as [t |]; [| auto with pyq].
  destruct (py_lt h 30 && py_gt t 25) eqn:Hdry; [| auto with pyq].
  reflect_tests. apply clamp_unit, div_nonneg; [| lra].
  apply Qmult_le_0_compat; [apply div_nonneg |]; lra.
Qed.

(** The scores of the rule-based assessment, block by block. *)
Lemma rule_based_scores cd :
  category_scores (_generate_default_risk_assessment cd)
  = [fst (precipitation_risks cd); snd (precipitation_risks cd);
     wind_risk cd;
     fst (temperature_risks cd); snd (temperature_risks cd);
     humidity_temperature_risk cd].
Proof.
  unfold _generate_default_risk_assessment.
  now destruct (temperature_risks cd), (precipitation_risks cd).
Qed.

Lemma rule_based_scores_unit cd :
  Forall unit_interval (category_scores (_generate_default_risk_assessment cd)).
Proof.
  rewrite rule_based_scores.
  destruct (temperature_risks_unit cd), (precipitation_risks_unit cd).
  repeat (apply List.Forall_cons; [assumption || idtac |]);
    [apply wind_risk_unit | apply humidity_temperature_risk_unit
    | apply List.Forall_nil].
Qed.

Lemma rule_based_overall_is_mean cd :
  let r := _generate_default_risk_assessment cd in
  overall_risk r = np_mean (category_scores r).
Proof.
  cbv zeta. unfold _generate_default_risk_assessment.
  now destruct (temperature_risks cd), (precipitation_risks cd).
Qed.

(** The mean of six numbers, as [np.mean] computes it. *)
Lemma np_mean_six a b c d e f :
  np_mean [a; b; c; d; e; f] == (a + b + c + d + e + f) / 6.
Proof. unfold np_mean, py_sum; cbn. field. Qed.

(** The two properties in the rule-based tier, where they need no
    assumption: every term is [min(1.0, x)] with [x] not negative, and the
    overall score is [np.mean] of the six scores. *)
Lemma rule_based_invariant cd :
  let r := _generate_default_risk_assessment cd in
  overall_risk r
  == (flood_risk r + drought_risk r + storm_risk r
      + heat_wave_risk r + cold_wave_risk r + wildfire_risk r) / 6
  /\ Forall unit_interval (category_scores r).
Proof.
  cbv zeta. split; [| apply rule_based_scores_unit].
  rewrite (rule_based_overall_is_mean cd). apply np_mean_six.
Qed.

(** The rule-based tier answers when the learned one is unavailable or
    its row is too short to index. *)
Lemma rule_based_tier_run (model : LearnedModel) cd :
  model cd = None
  \/ (exists row, model cd = Some row /\ (length row < 6)%nat) ->
  generate_risk_assessment model cd = _generate_default_risk_assessment cd.
Proof.
  unfold generate_risk_assessment.
  intros [-> | (row & -> & Hshort)]; [reflexivity |].
  destruct row as [| p0 [| p1 [| p2 [| p3 [| p4 [| p5 rest]]]]]];
    try reflexivity.
  cbn in Hshort. lia.
Qed.

(** The learned tier answers with the row as the model gave it. *)
Lemma learned_tier_run (model : LearnedModel) cd row :
  model cd = Some row -> (6 <= length row)%nat ->
  let r := generate_risk_assessment model cd in
  category_scores r = firstn 6 row /\ overall_risk r = np_mean row.
Proof.
  intros Hrow Hlong. cbv zeta. unfold generate_risk_assessment.
  rewrite Hrow.
  destruct row as [| p0 [| p1 [| p2 [| p3 [| p4 [| p5 rest]]]]]];
    cbn in Hlong; try lia.
  split; reflexivity.
Qed.

(** C3, as stated, fails in the learned tier, which hands on the row of
    its model unchecked.  A model whose row holds 3/2 gives a flood score
    above 1; a model whose row has a seventh entry gives an overall score
    that is the mean of seven numbers, here above the mean of the six
    category scores. *)
Lemma learned_row_passed_unchecked :
  let cd := observation (Some 40) (Some 20) (Some 20) None in
  let unbounded : LearnedModel := fun _ => Some [3 # 2; 0; 0; 0; 0; 0] in
  let seven : LearnedModel := fun _ => Some [0; 0; 0; 0; 0; 0; 1] in
  1 < flood_risk (generate_risk_assessment unbounded cd)
  /\ np_mean (category_scores (generate_risk_assessment seven cd))
     < overall_risk (generate_risk_assessment seven cd).
Proof. cbv zeta. split; reflexivity. Qed.

(** C3, amended.  When the rule-based tier answers (the learned tier is
    unavailable or its row has fewer than six entries), the overall score
    is the arithmetic mean of the six category scores and each of them is
    in [0,1], without any assumption.  When the learned tier answers, the
    category scores are the first six entries of the model's row as they
    are and the overall score is the mean of the whole row: the scores are
    in [0,1] exactly when those six entries are, and the overall score is
    the mean of the six when the row has no further entry.  Both
    properties hold, in particular, for a row of six values in [0,1]. *)
Theorem scores_bounded_by_tier (model : LearnedModel) (cd : ClimateData) :
  let r := generate_risk_assessment model cd in
  let mean_of_six :=
    (flood_risk r + drought_risk r + storm_risk r
     + heat_wave_risk r + cold_wave_risk r + wildfire_risk r) / 6 in
  (model cd = None
   \/ (exists row, model cd = Some row /\ (length row < 6)%nat) ->
   r = _generate_default_risk_assessment cd
   /\ overall_risk r == mean_of_six
   /\ Forall unit_interval (category_scores r))
  /\ (forall row, model cd = Some row -> (6 <= length row)%nat ->
        category_scores r = firstn 6 row
        /\ overall_risk r = np_mean row
        /\ (Forall unit_interval (category_scores r)
            <-> Forall unit_interval (firstn 6 row))
        /\ (length row = 6%nat -> overall_risk r == mean_of_six))
  /\ (forall row, model cd = Some row -> sigmoid_row row ->
        overall_risk r == mean_of_six
        /\ Forall unit_interval (category_scores r)).
Proof.
  intros r mean_of_six.
  assert (Hsix : forall row, model cd = Some row -> length row = 6%nat ->
                             overall_risk r == mean_of_six).
  { intros row Hrow Hlen. subst mean_of_six r.
    unfold generate_risk_assessment. rewrite Hrow.
    destruct row as [| p0 [| p1 [| p2 [| p3 [| p4 [| p5 [| p6 rest]]]]]]];
      try discriminate Hlen.
    cbn [overall_risk flood_risk drought_risk storm_risk heat_wave_risk
         cold_wave_risk wildfire_risk].
    apply np_mean_six. }
  split; [| split].
  - intros Hrules. subst mean_of_six r.
    rewrite (rule_based_tier_run model cd Hrules).
    split; [reflexivity | apply rule_based_invariant].
  - intros row Hrow Hlong.
    destruct (learned_tier_run model cd row Hrow Hlong) as [Hscores Hmean].
    fold r in Hscores, Hmean.
    split; [exact Hscores |]. split; [exact Hmean |].
    split; [now rewrite Hscores | exact (Hsix row Hrow)].
  - intros row Hrow [Hlen Hunit].
    split; [exact (Hsix row Hrow Hlen) |].
    assert (Hlong : (6 <= length row)%nat) by lia.
    destruct (learned_tier_run model cd row Hrow Hlong) as [Hscores _].
    fold r in Hscores. rewrite Hscores, <- Hlen, firstn_all. exact Hunit.
Qed.

Lemma scores_bounded_by_tier_witness :
  let cd := observation (Some 40) (Some 20) (Some 20) None in
  let unavailable : LearnedModel := fun _ => None in
  let model : LearnedModel :=
    fun _ => Some [1 # 10; 2 # 10; 3 # 10; 4 # 10; 5 # 10; 6 # 10] in
  Forall unit_interval
         (category_scores (generate_risk_assessment unavailable cd))
  /\ Forall unit_interval
            (category_scores (generate_risk_assessment model cd))
  /\ overall_risk (generate_risk_assessment model cd) == 35 # 100.
Proof.
  intros cd unavailable model.
  destruct (scores_bounded_by_tier unavailable cd) as (Hrules & _ & _).
  destruct (scores_bounded_by_tier model cd) as (_ & _ & Hlearned).
  split; [apply Hrules; left; reflexivity |].
  destruct (Hlearned _ eq_refl) as [Hmean Hunit].
  { split; [reflexivity |].
    repeat (apply List.Forall_cons; [split; cbn; lra |]).
    apply List.Forall_nil. }
  split; [exact Hunit |].
  rewrite Hmean. reflexivity.
Defined.

(** *** The rule-based tier on a known input *)

(** C5, as stated, fails: on the known input no category is strictly above
    the notable score 0.5.  Heat-wave is exactly 0.5, storm and wildfire
    are below it. *)
Lemma known_input_not_above_notable :
  let r := _generate_default_risk_assessment
             (observation (Some 40) (Some 20) (Some 20) None) in
  heat_wave_risk r == notable
  /\ storm_risk r < notable
  /\ wildfire_risk r < notable.
Proof. cbv zeta. repeat split. Qed.

(** C5, amended. On the known input the rule-based tier scores heat-wave
    1/2 (at the notable score, not above it), storm 1/4 and wildfire 1/3,
    and flood, drought and cold-wave exactly 0. *)
Theorem known_input_scores (cd : ClimateData) :
  known_input cd ->
  let r := _generate_default_risk_assessment cd in
  heat_wave_risk r == 1 # 2
  /\ storm_risk r == 1 # 4
  /\ wildfire_risk r == 1 # 3
  /\ flood_risk r = 0 /\ drought_risk r = 0 /\ cold_wave_risk r = 0.
Proof.
  intros (Ht & Hh & Hw & Hp) r. subst r.
  unfold _generate_default_risk_assessment, temperature_risks,
    precipitation_risks, wind_risk, humidity_temperature_risk.
  rewrite Ht, Hh, Hw, Hp. cbn.
  repeat split.
Qed.

Lemma known_input_scores_witness :
  let r := _generate_default_risk_assessment
             (observation (Some 40) (Some 20) (Some 20) None) in
  heat_wave_risk r == 1 # 2
  /\ storm_risk r == 1 # 4
  /\ wildfire_risk r == 1 # 3
  /\ flood_risk r = 0 /\ drought_risk r = 0 /\ cold_wave_risk r = 0.
Proof.
  apply known_input_scores. repeat split.
Defined.

(** *** Drought *)

(** C6, as stated, fails: with precipitation 0.5 the drought score is 0.3
    whether humidity is high (90) or absent. *)
Lemma drought_with_high_or_absent_humidity :
  drought_risk (_generate_default_risk_assessment
                  (observation None (Some 90) None (Some (1 # 2)))) = 3 # 10
  /\ drought_risk (_generate_default_risk_assessment
                     (observation None None None (Some (1 # 2)))) = 3 # 10.
Proof. split; reflexivity. Qed.

(** C6, amended. The drought score is decided by the precipitation reading
    alone: it is 0.3 for a reading strictly between 0 and 1, and 0 when the
    reading is absent or at least 1; two observations with the same
    precipitation reading have the same drought score, whatever their
    humidity. *)
Theorem drought_decided_by_precipitation (cd : ClimateData) :
  let r := _generate_default_risk_assessment cd in
  (forall p, precipitation cd = Some p -> 0 < p -> p < 1 ->
             drought_risk r = 3 # 10)
  /\ (precipitation cd = None -> drought_risk r = 0)
  /\ (forall p, precipitation cd = Some p -> 1 <= p -> drought_risk r = 0)
  /\ (forall cd', precipitation cd' = precipitation cd ->
                  drought_risk (_generate_default_risk_assessment cd')
                  = drought_risk r).
Proof.
  cbv zeta.
  assert (Hdrought : forall c,
             drought_risk (_generate_default_risk_assessment c)
             = snd (precipitation_risks c)).
  { intros c. unfold _generate_default_risk_assessment.
    now destruct (temperature_risks c), (precipitation_risks c). }
  rewrite Hdrought. unfold precipitation_risks. repeat split.
  - intros p -> Hpos Hlow. cbn.
    assert (Hnz : Qeq_bool p 0 = false).
    { destruct (Qeq_bool p 0) eqn:E; [| reflexivity].
      apply Qeq_bool_iff in E. lra. }
    assert (Hnot_wet : py_gt p 50 = false) by (apply py_gt_false; lra).
    assert (Hdry : py_lt p 1 = true) by (apply py_lt_true; lra).
    now rewrite Hnz, Hnot_wet, Hdry.
  - now intros ->.
  - intros p -> Hwet. cbn.
    assert (Hnot_dry : py_lt p 1 = false) by (apply py_lt_false; lra).
    destruct (Qeq_bool p 0); [reflexivity |].
    rewrite Hnot_dry. now destruct (py_gt p 50).
  - intros cd' Hsame. rewrite Hdrought. unfold precipitation_risks.
    now rewrite Hsame.
Qed.

Lemma drought_decided_by_precipitation_witness :
  drought_risk (_generate_default_risk_assessment
                  (observation None (Some 90) None (Some (1 # 2)))) = 3 # 10.
Proof.
  apply (proj1 (drought_decided_by_precipitation
                  (observation None (Some 90) None (Some (1 # 2)))) (1 # 2));
    reflexivity.
Defined.

(** *** No reading at all *)

(** C9. An observation without any reading gets six category scores that
    are exactly 0, and an overall score of 0. *)
Theorem no_reading_all_zero (cd : ClimateData) :
  no_reading cd ->
  let r := _generate_default_risk_assessment cd in
  category_scores r = [0; 0; 0; 0; 0; 0] /\ overall_risk r == 0.
Proof.
  intros (Ht & Hh & _ & Hw & _ & Hp & _) r. subst r.
  unfold _generate_default_risk_assessment, temperature_risks,
    precipitation_risks, wind_risk, humidity_temperature_risk.
  rewrite Ht, Hh, Hw, Hp. split; reflexivity.
Qed.

Lemma no_reading_all_zero_witness :
  let r := _generate_default_risk_assessment
             (observation None None None None) in
  category_scores r = [0; 0; 0; 0; 0; 0] /\ overall_risk r == 0.
Proof.
  apply no_reading_all_zero. unfold no_reading. cbn. repeat split.
Defined.

End PredictionFacts.

(** ** The geospatial matcher *)

Module MatcherFacts.
Import AlertSvc Scenario.

Lemma located_users_spec db u :
  In u (located_users db)
  <-> In u (users db) /\ is_active u = Some true
      /\ default_latitude u <> None /\ default_longitude u <> None.
Proof.
  unfold located_users. rewrite filter_In, !andb_true_iff, !bool_decide_eq_true.
  tauto.
Qed.

Lemma affected_users_spec g alert db u :
  In u (_find_affected_users g alert db)
  <-> In u (located_users db) /\ within_radius g alert u = Some true.
Proof.
  unfold _find_affected_users. rewrite filter_In.
  destruct (within_radius g alert u) as [[] |]; intuition congruence.
Qed.

(** A user without a registered latitude or longitude is never matched. *)
Lemma unlocated_never_matched g alert db u :
  default_latitude u = None \/ default_longitude u = None ->
  ~ In u (_find_affected_users g alert db).
Proof.
  rewrite affected_users_spec, located_users_spec. intuition congruence.
Qed.

(** The radii as the source resolves them: a radius of 0 is as good as
    none. *)
Lemma alert_radius_spec alert :
  alert_radius alert
  = match radius alert with
    | Some r => if Qeq_bool r 0 then 50 else r
    | None => 50
    end.
Proof. reflexivity. Qed.

Lemma within_radius_located g alert db u d :
  located_at g alert db u d ->
  In u (located_users db)
  /\ within_radius g alert u = Some (py_le d (effective_radius alert u)).
Proof.
  intros (Hin & Hact & slat & slon & lat & lon & Hlat & Hlon & Hflat & Hflon & Hd).
  split.
  - apply located_users_spec. rewrite Hlat, Hlon. intuition congruence.
  - unfold within_radius. rewrite Hlat, Hlon. cbn.
    rewrite Hflat, Hflon. cbn. now rewrite Hd.
Qed.




End MatcherFacts.

(** ** The SMS text *)

Module SmsFacts.
Import AlertSvc Scenario.

(** C10. The SMS text is never longer than 160 characters: a composed
    message of more than 160 characters is replaced by its first 157
    characters followed by three dots, a shorter one is kept as it is. *)
Theorem sms_content_within_limit (alert : EmergencyAlert) :
  (length (sms_content alert) <= 160)%nat
  /\ ((160 < length (sms_message alert))%nat ->
      sms_content alert = slice_to 157 (sms_message alert) ++ lit "..."
      /\ length (sms_content alert) = 160%nat)
  /\ ((length (sms_message alert) <= 160)%nat ->
      sms_content alert = sms_message alert).
Proof.
  unfold sms_content, slice_to.
  destruct (160 <? length (sms_message alert))%nat eqn:Hlong.
  - apply Nat.ltb_lt in Hlong.
    assert (Hlen : length (firstn 157 (sms_message alert) ++ lit "...") = 160%nat).
    { rewrite List.length_app, List.length_firstn.
      change (length (lit "...")) with 3%nat. lia. }
    split; [lia | split]; [auto | intros; lia].
  - apply Nat.ltb_ge in Hlong.
    split; [lia | split]; [intros; lia | auto].
Qed.

Lemma sms_content_within_limit_witness :
  sms_content long_titled = slice_to 157 (sms_message long_titled) ++ lit "..."
  /\ length (sms_content long_titled) = 160%nat.
Proof.
  apply (proj1 (proj2 (sms_content_within_limit long_titled))).
  vm_compute. lia.
Defined.

End SmsFacts.

(** ** The dispatcher *)

Module DispatchFacts.
Import AlertSvc Scenario.

(** *** The loops as folds over the sends they start *)

Lemma notify_user_run p alert u st :
  notify_user p alert u st
  = (fold_left (after_attempt p alert) (user_attempts alert u) st, Return tt).
Proof.
  unfold notify_user, user_attempts, bind, call, when, record_sent, ret,
    after_attempt, delivered, _send_push_notification,
    _send_email_notification, _send_sms_notification, send_via.
  cbn.
  destruct (p Push u alert);
    destruct (truthy_str (email u));
    destruct (is_critical (severity alert) && truthy_opt_str (phone_number u));
    cbn;
    try destruct (p Email u alert);
    try destruct (p Sms u alert);
    reflexivity.
Qed.

(** No exception reaches the handler of the recipient loop. *)
Lemma try_notify_user_run p alert st u :
  try_notify_user p alert st u
  = fold_left (after_attempt p alert) (user_attempts alert u) st.
Proof. unfold try_notify_user. now rewrite notify_user_run. Qed.

Lemma recipient_loop_run p alert us st :
  fold_left (try_notify_user p alert) us st
  = fold_left (after_attempt p alert) (flat_map (user_attempts alert) us) st.
Proof.
  revert st. induction us as [| u us IH]; intros st; [reflexivity |].
  cbn [fold_left flat_map].
  now rewrite fold_left_app, IH, try_notify_user_run.
Qed.

Lemma notify_agency_run p alert u st :
  fst (notify_agency p alert u st)
  = fold_left after_agency_attempt (agency_attempts u) st.
Proof.
  unfold notify_agency, bind, call, ret, _send_government_email,
    _send_push_notification, send_via, after_agency_attempt. cbn.
  destruct (p GovEmail u alert); destruct (p Push u alert); reflexivity.
Qed.

Lemma agency_loop_run p alert db st :
  _notify_government_agencies p alert db st
  = fold_left after_agency_attempt
      (flat_map agency_attempts (government_users db)) st.
Proof.
  unfold _notify_government_agencies.
  generalize (government_users db) as us. intros us. revert st.
  induction us as [| u us IH]; intros st; [reflexivity |].
  cbn [fold_left flat_map].
  now rewrite fold_left_app, IH, notify_agency_run.
Qed.

(** *** What a run of sends leaves in the state *)

Section Runs.

Variables (p : Providers) (alert : EmergencyAlert).

Lemma run_trace l st :
  trace (fold_left (after_attempt p alert) l st) = trace st ++ l.
Proof.
  revert st. induction l as [| a l IH]; intros st; cbn.
  - now rewrite app_nil_r.
  - rewrite IH. cbn. now rewrite <- app_assoc.
Qed.

Lemma run_errors l st :
  errors (results (fold_left (after_attempt p alert) l st)) = errors (results st).
Proof.
  revert st. induction l as [| a l IH]; intros st; cbn; [reflexivity |].
  rewrite IH. cbn. now destruct (delivered p alert a).
Qed.

Lemma run_sent l st :
  notifications_sent (results (fold_left (after_attempt p alert) l st))
  = (notifications_sent (results st) + successes p alert l)%nat.
Proof.
  unfold successes. revert st.
  induction l as [| a l IH]; intros st; cbn; [lia |].
  rewrite IH. cbn. destruct (delivered p alert a); cbn; lia.
Qed.

Lemma run_channels l st used :
  channels_used (results st) = Some used ->
  channels_used (results (fold_left (after_attempt p alert) l st))
  = Some (used_names p alert l used).
Proof.
  unfold used_names. revert st used.
  induction l as [| a l IH]; intros st used Hused; cbn; [exact Hused |].
  apply IH. cbn. destruct (delivered p alert a); [| exact Hused].
  cbn. now rewrite Hused.
Qed.

Lemma agency_run_trace l st :
  trace (fold_left after_agency_attempt l st) = trace st ++ l.
Proof.
  revert st. induction l as [| a l IH]; intros st; cbn.
  - now rewrite app_nil_r.
  - rewrite IH. cbn. now rewrite <- app_assoc.
Qed.

Lemma successes_none l :
  (forall a, delivered p alert a = false) -> successes p alert l = 0%nat.
Proof.
  intros Hfail. unfold successes.
  induction l as [| a l IH]; cbn; [reflexivity |]. now rewrite Hfail.
Qed.

(** [channels_used] lists each name once, and exactly the names of the
    channels on which a send succeeded. *)
Lemma add_name_NoDup name used : NoDup used -> NoDup (add_name name used).
Proof.
  intros Hnd. unfold add_name. case_bool_decide as Hin; [exact Hnd |].
  apply NoDup_app. split; [exact Hnd |].
  split; [| apply NoDup_singleton].
  intros x Hx Hx'. apply list_elem_of_singleton in Hx'. now subst.
Qed.

Lemma add_name_In name used x :
  In x (add_name name used) <-> In x used \/ x = name.
Proof.
  unfold add_name. case_bool_decide as Hin.
  - apply list_elem_of_In in Hin. intuition congruence.
  - rewrite in_app_iff. cbn. intuition congruence.
Qed.

Lemma used_names_NoDup l used :
  NoDup used -> NoDup (used_names p alert l used).
Proof.
  unfold used_names. revert used.
  induction l as [| a l IH]; intros used Hnd; cbn; [exact Hnd |].
  apply IH. destruct (delivered p alert a); [| exact Hnd].
  now apply add_name_NoDup.
Qed.

Lemma used_names_In l used x :
  In x (used_names p alert l used)
  <-> In x used
      \/ exists a, In a l /\ delivered p alert a = true
                   /\ channel_name (fst a) = x.
Proof.
  unfold used_names. revert used.
  induction l as [| a l IH]; intros used; cbn.
  - split; [auto | intros [H | (a & [] & _)]; exact H].
  - rewrite IH. destruct (delivered p alert a) eqn:Hd.
    + rewrite add_name_In. split.
      * intros [[H | ->] | (b & Hb & Hdb & Hn)]; eauto 7.
      * intros [H | (b & [<- | Hb] & Hdb & Hn)]; eauto 7.
    + split.
      * intros [H | (b & Hb & Hdb & Hn)]; eauto 7.
      * intros [H | (b & [<- | Hb] & Hdb & Hn)]; [auto | congruence | eauto 7].
Qed.

End Runs.

(** *** The whole pass *)

Lemma pass_without_recipients p g alert db :
  _find_affected_users g alert db = [] ->
  send_alert_notifications p g alert db
  = ({| notifications_sent := 0; errors := []; channels_used := None |}, []).
Proof. unfold send_alert_notifications. now intros ->. Qed.

Lemma pass_with_recipients p g alert db :
  _find_affected_users g alert db <> [] ->
  send_alert_notifications p g alert db
  = (results (fold_left (after_attempt p alert) (recipient_sends g alert db)
                        {| results := initial_results; trace := [] |}),
     recipient_sends g alert db
     ++ flat_map agency_attempts (government_users db)).
Proof.
  unfold send_alert_notifications, recipient_sends.
  destruct (_find_affected_users g alert db) as [| u us] eqn:Haff;
    [congruence | intros _].
  rewrite agency_loop_run, agency_run_trace, !recipient_loop_run, run_trace.
  reflexivity.
Qed.

Lemma is_critical_spec sev : is_critical sev = true <-> sev = CRITICAL.
Proof.
  unfold is_critical. rewrite bool_decide_eq_true.
  destruct sev; cbn; split; intros H; try reflexivity; discriminate H.
Qed.

Lemma sms_in_user_attempts alert u v :
  In (Sms, u) (user_attempts alert v)
  <-> v = u /\ severity alert = CRITICAL
      /\ truthy_opt_str (phone_number v) = true.
Proof.
  unfold user_attempts. rewrite <- is_critical_spec.
  destruct (truthy_str (email v));
    destruct (is_critical (severity alert));
    destruct (truthy_opt_str (phone_number v)); cbn;
    intuition congruence.
Qed.

Lemma government_users_spec db u :
  In u (government_users db)
  <-> In u (users db) /\ is_active u = Some true
      /\ (role u = Some GOVERNMENT \/ role u = Some EMERGENCY_RESPONDER).
Proof.
  unfold government_users, role_in.
  rewrite filter_In, andb_true_iff, bool_decide_eq_true.
  destruct (role u) as [r |].
  - rewrite bool_decide_eq_true, !elem_of_cons, elem_of_nil.
    intuition congruence.
  - intuition congruence.
Qed.

(** *** Partial failure (C4) *)

(** C4, as stated, fails: when every send fails the aggregate reports zero
    successes, yet its error list is empty, not populated.  Every channel
    method turns its own failure into a [False] return, which the
    dispatcher counts as "not sent" and does not record. *)
Lemma all_sends_fail_errors_empty :
  let alert := alert_at_origin CRITICAL ACTIVE None in
  let db := db_of [citizen_nearby; agency_user] [] in
  fst (send_alert_notifications all_fail example_geo alert db)
  = {| notifications_sent := 0; errors := []; channels_used := Some [] |}
  /\ length (snd (send_alert_notifications all_fail example_geo alert db))
     = 5%nat.
Proof. split; reflexivity. Qed.

(** C4, amended. A dispatch pass always returns an aggregate.  Its count
    is the number of sends to matched recipients that succeeded, so it is 0
    when every send fails; its error list is empty, also when every send
    fails (a failed send is a [False] return, not an exception); every
    send due to a matched recipient is started whatever the outcome of the
    other sends; the channels with a success are listed once each when
    some recipient is matched, and the entry is absent when none is. *)
Theorem dispatch_aggregate (p : Providers) (g : Geo) (alert : EmergencyAlert)
  (db : Db) :
  let affected := _find_affected_users g alert db in
  let r := fst (send_alert_notifications p g alert db) in
  let tr := snd (send_alert_notifications p g alert db) in
  errors r = []
  /\ notifications_sent r = successes p alert (recipient_sends g alert db)
  /\ ((forall a, delivered p alert a = false) ->
      notifications_sent r = 0%nat)
  /\ (forall u, In u affected -> incl (user_attempts alert u) tr)
  /\ (affected = [] -> channels_used r = None)
  /\ (affected <> [] ->
      exists names,
        channels_used r = Some names /\ NoDup names
        /\ forall name,
             In name names
             <-> exists a, In a (recipient_sends g alert db)
                           /\ delivered p alert a = true
                           /\ channel_name (fst a) = name).
Proof.
  cbv zeta.
  destruct (_find_affected_users g alert db) as [| u0 us] eqn:Haff.
  - rewrite (pass_without_recipients p g alert db Haff).
    unfold recipient_sends. rewrite Haff. cbn.
    split; [reflexivity |]. split; [reflexivity |].
    split; [reflexivity |]. split; [intros u [] |].
    split; [reflexivity |]. intros H. now contradiction H.
  - assert (Hne : _find_affected_users g alert db <> []) by (rewrite Haff; discriminate).
    rewrite (pass_with_recipients p g alert db Hne). cbn [fst snd].
    rewrite run_errors, run_sent. cbn.
    split; [reflexivity |]. split; [reflexivity |].
    split; [intros Hfail; now apply successes_none |].
    split.
    { intros u Hu a Ha. apply in_or_app. left.
      unfold recipient_sends. rewrite Haff. apply in_flat_map. eauto. }
    split; [discriminate |]. intros _.
    exists (used_names p alert (recipient_sends g alert db) []).
    split; [now apply run_channels |].
    split; [apply used_names_NoDup, NoDup_nil; exact I |].
    intros name. rewrite used_names_In. cbn. intuition.
Qed.

Lemma dispatch_aggregate_witness :
  let alert := alert_at_origin CRITICAL ACTIVE None in
  let db := db_of [citizen_nearby; agency_user] [] in
  notifications_sent
    (fst (send_alert_notifications all_fail example_geo alert db)) = 0%nat.
Proof.
  cbv zeta.
  apply (proj1 (proj2 (proj2 (dispatch_aggregate all_fail example_geo
                                (alert_at_origin CRITICAL ACTIVE None)
                                (db_of [citizen_nearby; agency_user] []))))).
  reflexivity.
Defined.

(** *** SMS escalation (C7) *)

(** C7, as stated, fails for a recipient reached through the agency path
    only: the alert is critical and the agency user has a phone number and
    is notified (government e-mail and push), but no SMS is started. *)
Lemma agency_user_gets_no_sms :
  let alert := alert_at_origin CRITICAL ACTIVE None in
  let db := db_of [citizen_nearby; agency_user] [] in
  let tr := snd (send_alert_notifications all_deliver example_geo alert db) in
  severity alert = CRITICAL
  /\ truthy_opt_str (phone_number agency_user) = true
  /\ tr = [(Push, citizen_nearby); (Email, citizen_nearby);
           (Sms, citizen_nearby);
           (GovEmail, agency_user); (Push, agency_user)].
Proof. repeat split. Qed.

(** C7, amended. In every dispatch pass an SMS send to a user is started
    if and only if the user is geospatially matched, the alert's severity
    is critical and the user has a (non-empty) phone number.  Hence no SMS
    is started for an alert of another severity, nor for a user reached
    through the agency path only. *)
Theorem sms_attempted_iff (p : Providers) (g : Geo) (alert : EmergencyAlert)
  (db : Db) (u : User) :
  In (Sms, u) (snd (send_alert_notifications p g alert db))
  <-> In u (_find_affected_users g alert db)
      /\ severity alert = CRITICAL
      /\ truthy_opt_str (phone_number u) = true.
Proof.
  destruct (_find_affected_users g alert db) as [| u0 us] eqn:Haff.
  - rewrite (pass_without_recipients p g alert db Haff). cbn. tauto.
  - assert (Hne : _find_affected_users g alert db <> []) by (rewrite Haff; discriminate).
    rewrite (pass_with_recipients p g alert db Hne). cbn [snd].
    unfold recipient_sends. rewrite Haff, in_app_iff, !in_flat_map. split.
    + intros [(v & Hv & Hsms) | (v & _ & Hsms)].
      * apply sms_in_user_attempts in Hsms as (-> & Hcrit & Hphone). auto.
      * cbn in Hsms. intuition congruence.
    + intros (Hu & Hcrit & Hphone). left. exists u.
      split; [exact Hu |]. now apply sms_in_user_attempts.
Qed.

(** *** The agency path (C8) *)

(** When some recipient is matched, every active government or
    emergency-responder user is sent the government e-mail and a push,
    with or without a registered location. *)
Lemma agencies_notified_when_somebody_in_area p g alert db u :
  _find_affected_users g alert db <> [] ->
  In u (users db) -> is_active u = Some true ->
  role u = Some GOVERNMENT \/ role u = Some EMERGENCY_RESPONDER ->
  incl (agency_attempts u) (snd (send_alert_notifications p g alert db)).
Proof.
  intros Hne Hin Hact Hrole a Ha.
  rewrite (pass_with_recipients p g alert db Hne). cbn [snd].
  apply in_or_app. right. apply in_flat_map. exists u.
  split; [| exact Ha]. now apply government_users_spec.
Qed.

(** When nobody is matched the pass returns before the agency loop. *)
Lemma nothing_sent_when_nobody_in_area p g alert db :
  _find_affected_users g alert db = [] ->
  snd (send_alert_notifications p g alert db) = [].
Proof. intros Haff. now rewrite (pass_without_recipients p g alert db Haff). Qed.

(** C8, on the code: an active government user without a registered
    location is selected by the agency query and is never geospatially
    matched; but with nobody in the affected area the pass ends at its
    early return and starts no send at all, so the government user is not
    notified. *)
Theorem agency_skipped_when_nobody_in_area :
  let alert := alert_at_origin CRITICAL ACTIVE None in
  let db := db_of [agency_user] [] in
  government_users db = [agency_user]
  /\ _find_affected_users example_geo alert db = []
  /\ send_alert_notifications all_deliver example_geo alert db
     = ({| notifications_sent := 0; errors := []; channels_used := None |}, []).
Proof. repeat split. Qed.

End DispatchFacts.

(** ** The alert life cycle *)

Module LifecycleFacts.
Import Endpoint Scenario.

Lemma updated_row_status alert upd now alert' :
  updated_row alert upd now = Some alert' ->
  status alert' = set_nullable (u_status upd) (status alert)
  /\ alert_id alert' = alert_id alert.
Proof.
  unfold updated_row. intros H.
  destruct (set_required (u_title upd) (title alert)); [| discriminate H].
  destruct (set_required (u_description upd) (description alert));
    [| discriminate H].
  destruct (set_required (u_severity upd) (severity alert));
    [| discriminate H].
  cbn in H. injection H as <-. split; reflexivity.
Qed.

(** The commit goes through unless the request nulls a required column. *)
Lemma updated_row_defined alert upd now :
  u_title upd <> Some None -> u_description upd <> Some None ->
  u_severity upd <> Some None ->
  exists alert', updated_row alert upd now = Some alert'.
Proof.
  intros Ht Hd Hs. unfold updated_row, set_required.
  destruct (u_title upd) as [[t |] |]; try congruence;
    destruct (u_description upd) as [[d |] |]; try congruence;
    destruct (u_severity upd) as [[s |] |]; try congruence;
    cbn; eauto.
Qed.

(** C1, as stated, fails: the update endpoint has no guard on the current
    status.  A request that sets a resolved alert back to active is
    written to the table, so one update leaves the terminal state. *)
Lemma resolved_alert_reactivated :
  let alert := alert_at_origin HIGH RESOLVED None in
  let db := db_of [] [alert] in
  let request := {| req_user := agency_user; req_id := alert_id alert;
                    req_update := set_status ACTIVE; req_now := 100 |} in
  is_terminal (status alert) = true
  /\ stored_status db (alert_id alert) = Some (Some RESOLVED)
  /\ stored_status (serve_all db [request]) (alert_id alert)
     = Some (Some ACTIVE).
Proof. repeat split. Qed.

(** C1, amended. For a caller allowed to manage alerts and an alert that
    exists, an update that nulls no required column is written to the
    table whatever the alert's current status: the stored status becomes
    the one of the request when the request sets it, also when the alert
    was resolved or cancelled, and stays what it was when the request does
    not set it; no other alert changes. *)
Theorem update_written_whatever_the_status
  (db : Db) (user : User) (id : pystr) (upd : EmergencyAlertUpdate) (now : Z)
  (alert : EmergencyAlert) :
  may_manage_alerts user = true ->
  alerts db !! id = Some alert ->
  u_title upd <> Some None -> u_description upd <> Some None ->
  u_severity upd <> Some None ->
  let db' := fst (fst (update_emergency_alert db user id upd now)) in
  stored_status db' id
  = Some (match u_status upd with
          | Some new_status => new_status
          | None => status alert
          end)
  /\ alerts db' !! id = updated_row alert upd now
  /\ (forall other, other <> id -> alerts db' !! other = alerts db !! other)
  /\ users db' = users db.
Proof.
  intros Hrole Hfound Ht Hd Hs.
  destruct (updated_row_defined alert upd now Ht Hd Hs) as [alert' Hrow].
  destruct (updated_row_status _ _ _ _ Hrow) as [Hstatus _].
  unfold update_emergency_alert, stored_status.
  rewrite Hrole, Hfound, Hrow. cbn.
  rewrite lookup_insert_eq. cbn. rewrite Hstatus.
  split; [reflexivity |]. split; [reflexivity |]. split; [| reflexivity].
  intros other Hother. now rewrite lookup_insert_ne.
Qed.

Lemma update_written_whatever_the_status_witness :
  let alert := alert_at_origin HIGH RESOLVED None in
  let db := db_of [] [alert] in
  stored_status
    (fst (fst (update_emergency_alert db agency_user (alert_id alert)
                                      (set_status ACTIVE) 100)))
    (alert_id alert)
  = Some (Some ACTIVE).
Proof.
  cbv zeta.
  apply (update_written_whatever_the_status
           (db_of [] [alert_at_origin HIGH RESOLVED None]) agency_user
           (alert_id (alert_at_origin HIGH RESOLVED None))
           (set_status ACTIVE) 100 (alert_at_origin HIGH RESOLVED None));
    first [reflexivity | discriminate].
Defined.

End LifecycleFacts.

(** ** Explanations, recommendations and the location assessment *)

Module ExplainFacts.
Import Prediction Explain.

(** *** Indexing a row *)

Lemma skipn_head_index (row : list Q) i x rest :
  skipn i row = x :: rest ->
  at_index row i = Some x /\ skipn (S i) row = rest.
Proof.
  unfold at_index. revert row.
  induction i as [| i IH]; intros [| y row] Hskip; try discriminate Hskip.
  - cbn in Hskip. injection Hskip as -> ->. now split.
  - cbn in Hskip. apply IH in Hskip. exact Hskip.
Qed.

Lemma skipn_short_index (row : list Q) i :
  skipn i row = [] -> at_index row i = None.
Proof.
  unfold at_index. revert row.
  induction i as [| i IH]; intros [| y row] Hskip;
    try reflexivity; try discriminate Hskip.
  cbn in Hskip. now apply IH.
Qed.

(** *** The two loops as a filter over the scored risk types *)

Lemma recommend_from_run types :
  forall i row acc,
    (length types <= length (skipn i row))%nat ->
    recommend_from i types row acc
    = Return (acc ++ flat_map actions_for
                       (List.map fst
                          (List.filter (scored_above (7 # 10))
                                       (combine types (skipn i row))))).
Proof.
  induction types as [| ty types IH]; intros i row acc Hlen.
  - cbn. now rewrite app_nil_r.
  - destruct (skipn i row) as [| x rest] eqn:Hskip; [cbn in Hlen; lia |].
    destruct (skipn_head_index _ _ _ _ Hskip) as [Hidx Hnext].
    cbn [recommend_from]. rewrite Hidx, IH by (rewrite Hnext; cbn in Hlen; lia).
    rewrite Hnext. cbn [combine List.filter]. unfold scored_above at 2. cbn [snd].
    destruct (py_gt x (7 # 10)); cbn [List.map flat_map fst];
      now rewrite <- ?app_assoc.
Qed.

Lemma recommend_from_short types :
  forall i row acc,
    (length (skipn i row) < length types)%nat ->
    exists e, recommend_from i types row acc = Raise e.
Proof.
  induction types as [| ty types IH]; intros i row acc Hlen; [cbn in Hlen; lia |].
  destruct (skipn i row) as [| x rest] eqn:Hskip.
  - cbn [recommend_from]. rewrite (skipn_short_index _ _ Hskip). eauto.
  - destruct (skipn_head_index _ _ _ _ Hskip) as [Hidx Hnext].
    cbn [recommend_from]. rewrite Hidx. apply IH.
    rewrite Hnext. cbn in Hlen. lia.
Qed.

Lemma factors_from_run types :
  forall i row acc,
    (length types <= length (skipn i row))%nat ->
    factors_from i types row acc
    = Return (acc ++ List.map make_factor
                       (List.filter (scored_above (5 # 10))
                                    (combine types (skipn i row)))).
Proof.
  induction types as [| ty types IH]; intros i row acc Hlen.
  - cbn. now rewrite app_nil_r.
  - destruct (skipn i row) as [| x rest] eqn:Hskip; [cbn in Hlen; lia |].
    destruct (skipn_head_index _ _ _ _ Hskip) as [Hidx Hnext].
    cbn [factors_from]. rewrite Hidx, IH by (rewrite Hnext; cbn in Hlen; lia).
    rewrite Hnext. cbn [combine List.filter]. unfold scored_above at 2. cbn [snd].
    destruct (py_gt x (5 # 10)); cbn [List.map];
      now rewrite <- ?app_assoc.
Qed.

Lemma factors_from_short types :
  forall i row acc,
    (length (skipn i row) < length types)%nat ->
    exists e, factors_from i types row acc = Raise e.
Proof.
  induction types as [| ty types IH]; intros i row acc Hlen; [cbn in Hlen; lia |].
  destruct (skipn i row) as [| x rest] eqn:Hskip.
  - cbn [factors_from]. rewrite (skipn_short_index _ _ Hskip). eauto.
  - destruct (skipn_head_index _ _ _ _ Hskip) as [Hidx Hnext].
    cbn [factors_from]. rewrite Hidx. apply IH.
    rewrite Hnext. cbn in Hlen. lia.
Qed.

Lemma types_above_filter threshold row :
  types_above threshold row
  = List.map fst (List.filter (scored_above threshold) (combine risk_types row)).
Proof.
  unfold types_above. f_equal. apply filter_ext. now intros [ty x].
Qed.

(** A type above the threshold is one of the six, with its score. *)
Lemma types_above_In threshold row ty :
  In ty (types_above threshold row)
  <-> exists score, In (ty, score) (combine risk_types row) /\ threshold < score.
Proof.
  rewrite types_above_filter, in_map_iff. split.
  - intros ([ty' x] & <- & Hin). apply filter_In in Hin as [Hin Habove].
    exists x. split; [exact Hin |]. now apply py_gt_true.
  - intros (x & Hin & Habove). exists (ty, x). split; [reflexivity |].
    apply filter_In. split; [exact Hin |]. now apply py_gt_true.
Qed.

Lemma types_above_risk_type threshold row ty :
  In ty (types_above threshold row) -> In ty risk_types.
Proof.
  rewrite types_above_In. intros (x & Hin & _).
  now apply in_combine_l in Hin.
Qed.

Lemma actions_three ty : In ty risk_types -> length (actions_for ty) = 3%nat.
Proof.
  cbn. intros [<- | [<- | [<- | [<- | [<- | [<- | []]]]]]]; reflexivity.
Qed.

(** The eighteen actions are pairwise distinct. *)
Lemma actions_distinct : NoDup (flat_map actions_for risk_types).
Proof.
  refine (bool_decide_unpack (NoDup (flat_map actions_for risk_types)) _).
  vm_compute. exact I.
Qed.

Lemma types_above_sublist threshold row :
  sublist (types_above threshold row) risk_types.
Proof.
  rewrite types_above_filter.
  assert (Hgen : forall types r,
             sublist (List.map fst (List.filter (scored_above threshold)
                                                (combine types r))) types).
  { induction types as [| ty types IH]; intros [| x r]; cbn;
      try apply sublist_nil_l.
    destruct (scored_above threshold (ty, x)); cbn.
    - apply sublist_skip, IH.
    - apply sublist_cons, IH. }
  apply Hgen.
Qed.

Lemma flat_map_sublist {A B} (f : A -> list B) (l k : list A) :
  sublist l k -> sublist (flat_map f l) (flat_map f k).
Proof.
  induction 1 as [| x l k _ IH | x l k _ IH]; cbn.
  - apply sublist_nil_l.
  - apply sublist_app; [reflexivity | exact IH].
  - apply sublist_inserts_l, IH.
Qed.

Lemma recommendations_list row :
  (6 <= length row)%nat ->
  recommend_from 0 risk_types row []
  = Return (flat_map actions_for (types_above (7 # 10) row)).
Proof.
  intros Hlen.
  rewrite recommend_from_run by (change (length risk_types) with 6%nat; exact Hlen).
  now rewrite types_above_filter.
Qed.

Lemma actions_length above :
  (forall ty, In ty above -> In ty risk_types) ->
  length (flat_map actions_for above) = (3 * length above)%nat.
Proof.
  induction above as [| ty above IH]; intros Hin; [reflexivity |].
  cbn [flat_map length]. rewrite List.length_app, actions_three, IH.
  - lia.
  - intros ty' Hty'. apply Hin. now right.
  - apply Hin. now left.
Qed.

Lemma nonempty_or_default {A} (l d : list A) :
  l <> [] -> match l with [] => d | _ :: _ => l end = l.
Proof. now destruct l. Qed.

Lemma actions_nonempty above :
  above <> [] -> (forall ty, In ty above -> In ty risk_types) ->
  flat_map actions_for above <> [].
Proof.
  intros Hne Hin Hnil. apply (f_equal (@length string)) in Hnil.
  rewrite actions_length in Hnil by exact Hin.
  destruct above; [congruence | cbn in Hnil; lia].
Qed.

(** With a type above 0.7 the recommendations are the actions of the
    types above 0.7. *)
Lemma recommendations_members row :
  (6 <= length row)%nat -> types_above (7 # 10) row <> [] ->
  _generate_recommendations row
  = list_to_set (flat_map actions_for (types_above (7 # 10) row)).
Proof.
  intros Hlen Hne. unfold _generate_recommendations.
  rewrite recommendations_list by exact Hlen.
  rewrite nonempty_or_default; [reflexivity |].
  apply actions_nonempty; [exact Hne |].
  intros ty. apply types_above_risk_type.
Qed.

(** *** Recommendations *)

(** X1. For a row of at least six scores: without a score above 0.7 among
    the six, the recommendations are the single message "Continue
    monitoring weather conditions"; otherwise they are exactly the actions
    of the risk types whose score is above 0.7, three per type, and the
    conversion to a set drops none of them. *)
Theorem recommendations_follow_high_scores (row : list Q) :
  (6 <= length row)%nat ->
  let above := types_above (7 # 10) row in
  (above = [] ->
   _generate_recommendations row
   = {[ "Continue monitoring weather conditions" ]})
  /\ (above <> [] ->
      (forall a, a ∈ _generate_recommendations row
                 <-> exists ty, In ty above /\ In a (actions_for ty))
      /\ size (_generate_recommendations row) = (3 * length above)%nat).
Proof.
  intros Hlen above. split.
  - intros Hnone. unfold _generate_recommendations.
    rewrite recommendations_list by exact Hlen.
    fold above. rewrite Hnone. cbn [flat_map]. set_solver.
  - intros Hsome. rewrite recommendations_members by assumption. fold above.
    split.
    + intros a. rewrite elem_of_list_to_set, list_elem_of_In, in_flat_map.
      reflexivity.
    + rewrite size_list_to_set.
      * apply actions_length. intros ty. apply types_above_risk_type.
      * eapply sublist_NoDup;
          [exact actions_distinct | apply flat_map_sublist, types_above_sublist].
Qed.

Lemma recommendations_follow_high_scores_witness :
  size (_generate_recommendations [9 # 10; 0; 0; 75 # 100; 0; 0]) = 6%nat.
Proof.
  apply (proj2 (proj2 (recommendations_follow_high_scores
                         [9 # 10; 0; 0; 75 # 100; 0; 0] ltac:(cbn; lia))
                      ltac:(discriminate))).
Defined.

(** *** Rows that are too short *)

(** X2. With fewer than six scores both loops run into an [IndexError]
    (or [np.max] into a [ValueError]): the recommendations are the single
    message of the handler, whatever the scores present, and the
    explanation is the error dictionary. *)
Theorem short_row_falls_back (cd : ClimateData) (row : list Q) :
  (length row < 6)%nat ->
  _generate_recommendations row
  = {[ "Monitor weather conditions and stay informed" ]}
  /\ _generate_risk_explanations cd row = None.
Proof.
  intros Hlen. split.
  - unfold _generate_recommendations.
    destruct (recommend_from_short risk_types 0 row []) as [e ->];
      [exact Hlen | reflexivity].
  - unfold _generate_risk_explanations.
    destruct (np_max row); [| reflexivity].
    destruct (factors_from_short risk_types 0 row []) as [e ->];
      [exact Hlen | reflexivity].
Qed.

Lemma short_row_falls_back_witness :
  _generate_recommendations [9 # 10; 9 # 10]
  = {[ "Monitor weather conditions and stay informed" ]}
  /\ _generate_risk_explanations (observation None None None None)
       [9 # 10; 9 # 10] = None.
Proof.
  apply short_row_falls_back. cbn. lia.
Defined.

(** *** Explanations *)

Lemma py_max_above a b t : t < py_max a b <-> t < a \/ t < b.
Proof.
  unfold py_max. destruct (py_gt b a) eqn:E.
  - apply py_gt_true in E. split; [auto | intros [H | H]; lra].
  - apply py_gt_false in E. split; [auto | intros [H | H]; lra].
Qed.

Lemma fold_py_max_above rest :
  forall x t, t < fold_left py_max rest x <-> t < x \/ Exists (fun y => t < y) rest.
Proof.
  induction rest as [| y rest IH]; intros x t; cbn.
  - rewrite Exists_nil. tauto.
  - rewrite IH, py_max_above, Exists_cons. tauto.
Qed.

Lemma np_max_above row highest t :
  np_max row = Return highest ->
  (py_gt highest t = true <-> Exists (fun y => t < y) row).
Proof.
  destruct row as [| x rest]; [discriminate |].
  cbn. intros [= <-]. rewrite py_gt_true, fold_py_max_above, Exists_cons.
  reflexivity.
Qed.

Lemma explanations_run cd row :
  (6 <= length row)%nat ->
  exists highest,
    np_max row = Return highest
    /\ _generate_risk_explanations cd row
       = Some {| primary_factors :=
                   List.map make_factor
                     (List.filter (scored_above (5 # 10))
                                  (combine risk_types row));
                 contributing_conditions :=
                   condition "temperature" (temperature cd)
                   ++ condition "precipitation" (precipitation cd)
                   ++ condition "wind_speed" (wind_speed cd);
                 confidence_level :=
                   if py_gt highest (7 # 10) then "high" else "medium" |}.
Proof.
  intros Hlen. unfold _generate_risk_explanations.
  destruct row as [| x rest]; [cbn in Hlen; lia |].
  exists (fold_left py_max rest x). split; [reflexivity |].
  cbn [np_max].
  rewrite factors_from_run
    by (change (length risk_types) with 6%nat; exact Hlen).
  reflexivity.
Qed.

Lemma factor_in_run row f :
  In f (List.map make_factor
          (List.filter (scored_above (5 # 10)) (combine risk_types row)))
  <-> exists ty score,
        f = make_factor (ty, score)
        /\ In (ty, score) (combine risk_types row) /\ 5 # 10 < score.
Proof.
  rewrite in_map_iff. split.
  - intros ([ty x] & <- & Hin). apply filter_In in Hin as [Hin Habove].
    exists ty, x. split; [reflexivity |]. split; [exact Hin |].
    now apply py_gt_true.
  - intros (ty & x & -> & Hin & Habove). exists (ty, x).
    split; [reflexivity |]. apply filter_In. split; [exact Hin |].
    now apply py_gt_true.
Qed.

Lemma make_factor_high typed :
  factor_severity (make_factor typed) = "high" <-> 8 # 10 < snd typed.
Proof.
  unfold make_factor. cbn. destruct (py_gt (snd typed) (8 # 10)) eqn:E.
  - apply py_gt_true in E. tauto.
  - apply py_gt_false in E. split; [discriminate | intros H; lra].
Qed.

(** X3. For a row of at least six scores the explanation lists, in the
    order of the risk types, exactly the types whose score is above 0.5,
    each with its score; a listed factor is "high" exactly when its score
    is above 0.8 and "moderate" otherwise; the confidence level is "high"
    exactly when some score of the row is above 0.7. *)
Theorem explanations_list_notable_scores (cd : ClimateData) (row : list Q) :
  (6 <= length row)%nat ->
  exists e,
    _generate_risk_explanations cd row = Some e
    /\ List.map factor_type (primary_factors e) = types_above (5 # 10) row
    /\ (forall f, In f (primary_factors e) ->
          In (factor_type f, probability f) (combine risk_types row)
          /\ 5 # 10 < probability f
          /\ (factor_severity f = "high" <-> 8 # 10 < probability f)
          /\ (factor_severity f = "high" \/ factor_severity f = "moderate"))
    /\ (confidence_level e = "high"
        <-> Exists (fun score => 7 # 10 < score) row).
Proof.
  intros Hlen.
  destruct (explanations_run cd row Hlen) as (highest & Hmax & ->).
  eexists. split; [reflexivity |]. cbn [primary_factors confidence_level].
  split; [| split].
  - rewrite types_above_filter, List.map_map. reflexivity.
  - intros f Hf. apply factor_in_run in Hf as (ty & x & -> & Hin & Habove).
    split; [exact Hin |]. split; [exact Habove |].
    split; [apply (make_factor_high (ty, x)) |].
    unfold make_factor. cbn. destruct (py_gt x (8 # 10)); auto.
  - rewrite <- (np_max_above row highest (7 # 10) Hmax).
    destruct (py_gt highest (7 # 10)); split; intros H;
      first [reflexivity | discriminate H].
Qed.

Lemma explanations_list_notable_scores_witness :
  exists e,
    _generate_risk_explanations (observation (Some 40) None None None)
      [9 # 10; 0; 0; 6 # 10; 0; 0] = Some e
    /\ List.map factor_type (primary_factors e) = ["flood"; "heat_wave"].
Proof.
  destruct (explanations_list_notable_scores
              (observation (Some 40) None None None)
              [9 # 10; 0; 0; 6 # 10; 0; 0] ltac:(cbn; lia))
    as (e & He & Htypes & _).
  exists e. split; [exact He | exact Htypes].
Defined.

(** X4. The two helpers agree: whenever the explanation rates a factor
    "high", its confidence level is "high" and the recommendations hold
    the three actions of that factor's risk type. *)
Theorem high_factor_is_recommended (cd : ClimateData) (row : list Q)
  (e : Explanation) (f : Factor) :
  (6 <= length row)%nat ->
  _generate_risk_explanations cd row = Some e ->
  In f (primary_factors e) ->
  factor_severity f = "high" ->
  confidence_level e = "high"
  /\ (forall a, In a (actions_for (factor_type f)) ->
                a ∈ _generate_recommendations row)
  /\ length (actions_for (factor_type f)) = 3%nat.
Proof.
  intros Hlen He Hf Hhigh.
  destruct (explanations_run cd row Hlen) as (highest & Hmax & Hrun).
  rewrite Hrun in He. injection He as <-.
  cbn [primary_factors confidence_level] in *.
  apply factor_in_run in Hf as (ty & x & -> & Hin & Hnotable).
  apply (make_factor_high (ty, x)) in Hhigh. cbn [snd] in Hhigh.
  assert (Habove : In ty (types_above (7 # 10) row)).
  { apply types_above_In. exists x. split; [exact Hin | lra]. }
  split; [| split].
  - assert (Hexists : Exists (fun y => 7 # 10 < y) row).
    { apply Exists_exists. exists x. split; [| lra].
      apply list_elem_of_In. now apply in_combine_r in Hin. }
    apply (np_max_above row highest (7 # 10) Hmax) in Hexists.
    now rewrite Hexists.
  - intros a Ha. rewrite recommendations_members;
      [| exact Hlen | intros Hnil; rewrite Hnil in Habove; contradiction].
    rewrite elem_of_list_to_set, list_elem_of_In, in_flat_map. eauto.
  - apply actions_three. now apply in_combine_l in Hin.
Qed.

Lemma high_factor_is_recommended_witness :
  "Prepare emergency evacuation routes"
  ∈ _generate_recommendations [9 # 10; 0; 0; 6 # 10; 0; 0].
Proof.
  destruct (explanations_run (observation None None None None)
              [9 # 10; 0; 0; 6 # 10; 0; 0] ltac:(cbn; lia))
    as (highest & _ & Hrun).
  refine (proj1 (proj2 (high_factor_is_recommended
                          (observation None None None None)
                          [9 # 10; 0; 0; 6 # 10; 0; 0] _
                          (make_factor ("flood", 9 # 10))
                          ltac:(cbn; lia) Hrun _ _)) _ _).
  - now left.
  - reflexivity.
  - right. now left.
Defined.

(** *** Features *)

Lemma or_default_if_truthy x d :
  or_default x d = default d (if_truthy x).
Proof.
  unfold or_default, if_truthy. destruct x as [q |]; [| reflexivity].
  now destruct (Qeq_bool q 0).
Qed.

(** X5. The weather features are one row of ten numbers per observation,
    and they cannot tell a missing reading from a reading of 0: both give
    the feature's default (1013.25 for pressure, 10 for visibility, 0
    elsewhere). *)
Theorem features_shape_and_defaults (climate_data : list ClimateData) :
  length (_prepare_weather_features climate_data) = length climate_data
  /\ Forall (fun row => length row = 10%nat)
            (_prepare_weather_features climate_data)
  /\ (forall a b, same_nonzero_readings a b ->
                  weather_feature_vector a = weather_feature_vector b)
  /\ (forall a, no_reading a ->
                weather_feature_vector a
                = [0; 0; 101325 # 100; 0; 0; 0; 10; 0; 0; 0]).
Proof.
  unfold _prepare_weather_features. split; [apply List.length_map |].
  split; [| split].
  - apply Forall_forall. intros row Hrow.
    apply list_elem_of_In, in_map_iff in Hrow as (data & <- & _). reflexivity.
  - intros a b (Ht & Hh & Hp & Hw & Hd & Hr & Hv & Hc & Hu & Hm).
    unfold weather_feature_vector. rewrite !or_default_if_truthy.
    now rewrite Ht, Hh, Hp, Hw, Hd, Hr, Hv, Hc, Hu, Hm.
  - intros a (Ht & Hh & Hp & Hw & Hd & Hr & Hv & Hc & Hu & Hm & _).
    unfold weather_feature_vector.
    now rewrite Ht, Hh, Hp, Hw, Hd, Hr, Hv, Hc, Hu, Hm.
Qed.

Lemma features_shape_and_defaults_witness :
  weather_feature_vector (observation (Some 0) None (Some 0) None)
  = weather_feature_vector (observation None (Some 0) None (Some 0)).
Proof.
  apply (proj1 (proj2 (proj2 (features_shape_and_defaults [])))).
  unfold same_nonzero_readings. cbn. repeat split.
Defined.

(** *** The location assessment *)

Lemma in_unit_range_spec x : in_unit_range x = true <-> unit_interval x.
Proof.
  unfold in_unit_range, unit_interval.
  now rewrite andb_true_iff, !py_le_true.
Qed.

Lemma default_location_risk_unit :
  Forall unit_interval (category_scores _generate_default_location_risk)
  /\ unit_interval (overall_risk _generate_default_location_risk)
  /\ unit_interval (confidence_score _generate_default_location_risk).
Proof.
  split; [| split].
  - unfold category_scores. cbn.
    repeat (apply List.Forall_cons; [split; lra |]). apply List.Forall_nil.
  - cbn. split; lra.
  - cbn. split; lra.
Qed.

(** X6. Whatever the learned model returns and whatever the forecast, the
    location assessment has every category score, the overall score and
    the confidence in [0, 1]: an assessment outside that range fails the
    response's validation and is replaced by the default one. *)
Theorem location_scores_always_bounded (model : LearnedModel)
  (forecast_data : list ClimateData) :
  let r := generate_location_risk_assessment model forecast_data in
  Forall unit_interval (category_scores r)
  /\ unit_interval (overall_risk r)
  /\ unit_interval (confidence_score r).
Proof.
  cbv zeta. unfold generate_location_risk_assessment.
  destruct forecast_data as [| first rest];
    [exact default_location_risk_unit |].
  destruct (response_validates _) eqn:Hvalid;
    [| exact default_location_risk_unit].
  unfold response_validates in Hvalid.
  do 3 (apply andb_true_iff in Hvalid as [Hvalid _]).
  rewrite List.forallb_forall in Hvalid.
  assert (Hunit : forall x,
             In x [flood_risk (generate_risk_assessment model (temp_climate_data first));
                   drought_risk (generate_risk_assessment model (temp_climate_data first));
                   storm_risk (generate_risk_assessment model (temp_climate_data first));
                   heat_wave_risk (generate_risk_assessment model (temp_climate_data first));
                   cold_wave_risk (generate_risk_assessment model (temp_climate_data first));
                   wildfire_risk (generate_risk_assessment model (temp_climate_data first));
                   overall_risk (generate_risk_assessment model (temp_climate_data first));
                   confidence_score (generate_risk_assessment model (temp_climate_data first))] ->
             unit_interval x).
  { intros x Hx. apply in_unit_range_spec, Hvalid, Hx. }
  unfold category_scores. cbn [flood_risk drought_risk storm_risk
    heat_wave_risk cold_wave_risk wildfire_risk overall_risk confidence_score].
  split; [| split].
  - repeat (apply List.Forall_cons; [apply Hunit; cbn; tauto |]).
    apply List.Forall_nil.
  - apply Hunit; cbn; tauto.
  - apply Hunit; cbn; tauto.
Qed.

Lemma unit_sum_six a b c d e f :
  unit_interval a -> unit_interval b -> unit_interval c ->
  unit_interval d -> unit_interval e -> unit_interval f ->
  unit_interval ((a + b + c + d + e + f) / 6).
Proof.
  unfold unit_interval. intros. split.
  - apply div_nonneg; lra.
  - apply Qle_shift_div_r; lra.
Qed.

Lemma np_mean_six_unit a b c d e f :
  unit_interval a -> unit_interval b -> unit_interval c ->
  unit_interval d -> unit_interval e -> unit_interval f ->
  unit_interval (np_mean [a; b; c; d; e; f]).
Proof.
  intros Ha Hb Hc Hd He Hf.
  destruct (unit_sum_six a b c d e f Ha Hb Hc Hd He Hf) as [Hlow Hhigh].
  unfold unit_interval. rewrite (PredictionFacts.np_mean_six a b c d e f).
  now split.
Qed.

Lemma rule_based_validates cd :
  response_validates (_generate_default_risk_assessment cd) = true.
Proof.
  pose proof (PredictionFacts.rule_based_scores_unit cd) as Hunit.
  pose proof (PredictionFacts.rule_based_overall_is_mean cd) as Hmean.
  cbv zeta in Hmean.
  unfold response_validates.
  destruct (_generate_default_risk_assessment cd) as
    [i fl dr st hw cw wf ov mv cs ph] eqn:Hrule.
  assert (Hmeta : mv = "rule_based_v1.0"%string /\ cs = 6 # 10 /\ ph = 24%Z).
  { unfold _generate_default_risk_assessment in Hrule.
    destruct (temperature_risks cd), (precipitation_risks cd).
    injection Hrule as <- <- <- <- <- <- <- <- <- <- <-. repeat split. }
  destruct Hmeta as (-> & -> & ->).
  unfold category_scores in *.
  cbn [flood_risk drought_risk storm_risk heat_wave_risk cold_wave_risk
       wildfire_risk overall_risk confidence_score prediction_horizon
       model_version] in *.
  rewrite !andb_true_iff.
  split; [split; [split |] |]; try reflexivity.
  apply List.forallb_forall. intros x Hx. apply in_unit_range_spec.
  rewrite Forall_forall in Hunit.
  destruct Hx as [<- | [<- | [<- | [<- | [<- | [<- | [<- | [<- | []]]]]]]]];
    try (apply Hunit, list_elem_of_In; cbn; tauto).
  - rewrite Hmean.
    apply np_mean_six_unit; apply Hunit, list_elem_of_In; cbn; tauto.
  - split; lra.
Qed.

(** X7. When the learned tier is unavailable, the location assessment of
    a non-empty forecast is the rule-based assessment of the first
    forecast point's ten readings: the rule-based tier always passes the
    response's validation, and the later forecast points play no part. *)
Theorem location_uses_rule_based_scores (model : LearnedModel)
  (first_forecast : ClimateData) (rest : list ClimateData) :
  model (temp_climate_data first_forecast) = None ->
  let r := generate_location_risk_assessment model (first_forecast :: rest) in
  let rule_based :=
    _generate_default_risk_assessment (temp_climate_data first_forecast) in
  category_scores r = category_scores rule_based
  /\ overall_risk r = overall_risk rule_based
  /\ model_version r = "rule_based_v1.0"%string
  /\ climate_data_id r = 0%Z.
Proof.
  intros Hmodel. cbv zeta. unfold generate_location_risk_assessment.
  unfold generate_risk_assessment. rewrite Hmodel, rule_based_validates.
  unfold category_scores. cbn.
  repeat split.
  unfold _generate_default_risk_assessment.
  now destruct (temperature_risks _), (precipitation_risks _).
Qed.

Lemma location_uses_rule_based_scores_witness :
  let r := generate_location_risk_assessment (fun _ => None)
             [observation (Some 40) (Some 20) (Some 20) None;
              observation (Some (-40)) None None None] in
  category_scores r
  = category_scores (_generate_default_risk_assessment
                       (temp_climate_data
                          (observation (Some 40) (Some 20) (Some 20) None))).
Proof.
  apply (location_uses_rule_based_scores (fun _ => None)). reflexivity.
Defined.

End ExplainFacts.

(** ** More on the rule-based tier *)

Module RuleFacts.
Import Prediction.

Lemma rule_based_fields cd :
  let r := _generate_default_risk_assessment cd in
  heat_wave_risk r = fst (temperature_risks cd)
  /\ cold_wave_risk r = snd (temperature_risks cd)
  /\ flood_risk r = fst (precipitation_risks cd)
  /\ drought_risk r = snd (precipitation_risks cd)
  /\ storm_risk r = wind_risk cd
  /\ wildfire_risk r = humidity_temperature_risk cd.
Proof.
  cbv zeta. unfold _generate_default_risk_assessment.
  destruct (temperature_risks cd), (precipitation_risks cd). repeat split.
Qed.

Lemma if_truthy_some x t : if_truthy x = Some t -> x = Some t /\ ~ t == 0.
Proof.
  unfold if_truthy. destruct x as [q |]; [| discriminate].
  destruct (Qeq_bool q 0) eqn:E; [discriminate |].
  intros [= <-]. split; [reflexivity |]. now apply Qeq_bool_neq.
Qed.

Lemma if_truthy_nonzero t : ~ t == 0 -> if_truthy (Some t) = Some t.
Proof.
  intros Hnz. cbn. destruct (Qeq_bool t 0) eqn:E; [| reflexivity].
  apply Qeq_bool_iff in E. contradiction.
Qed.

Lemma div_le_mono a b d : a <= b -> 0 < d -> a / d <= b / d.
Proof.
  intros Hab Hd. unfold Qdiv. apply Qmult_le_compat_r; [exact Hab |].
  apply Qlt_le_weak, Qinv_lt_0_compat, Hd.
Qed.

Lemma clamp_mono a b : a <= b -> py_min 1 a <= py_min 1 b.
Proof.
  intros Hab. unfold py_min.
  destruct (py_lt a 1) eqn:Ea, (py_lt b 1) eqn:Eb;
    rewrite ?py_lt_true, ?py_lt_false in *; lra.
Qed.

Lemma clamp_saturates a : 1 <= a -> py_min 1 a = 1.
Proof.
  intros Ha. unfold py_min.
  assert (E : py_lt a 1 = false) by (apply py_lt_false; exact Ha).
  now rewrite E.
Qed.

Lemma one_le_div a d : 0 < d -> d <= a -> 1 <= a / d.
Proof.
  intros Hd Ha. apply Qle_shift_div_l; [exact Hd | lra].
Qed.

(** X8. In the rule-based tier heat-wave and cold-wave are never both
    scored, nor are flood and drought; and the drought score is at most
    0.3, so it never reaches the notable score 0.5. *)
Theorem rule_based_scores_exclude_each_other (cd : ClimateData) :
  let r := _generate_default_risk_assessment cd in
  (heat_wave_risk r = 0 \/ cold_wave_risk r = 0)
  /\ (flood_risk r = 0 \/ drought_risk r = 0)
  /\ drought_risk r <= 3 # 10
  /\ drought_risk r < notable.
Proof.
  cbv zeta.
  destruct (rule_based_fields cd) as (-> & -> & -> & -> & _).
  unfold temperature_risks, precipitation_risks, notable.
  destruct (if_truthy (temperature cd)) as [t |];
    destruct (if_truthy (precipitation cd)) as [p |]; cbn;
    try destruct (py_gt t 35); try destruct (py_lt t (-10));
    try destruct (py_gt p 50); try destruct (py_lt p 1); cbn;
    repeat split; auto; lra.
Qed.

(** X9. A higher temperature reading never lowers the heat-wave score and
    never raises the cold-wave score. *)
Theorem warmer_reading_is_monotone (a b : ClimateData) (ta tb : Q) :
  temperature a = Some ta -> temperature b = Some tb -> ta <= tb ->
  heat_wave_risk (_generate_default_risk_assessment a)
  <= heat_wave_risk (_generate_default_risk_assessment b)
  /\ cold_wave_risk (_generate_default_risk_assessment b)
     <= cold_wave_risk (_generate_default_risk_assessment a).
Proof.
  intros Ha Hb Hle.
  destruct (rule_based_fields a) as (-> & -> & _).
  destruct (rule_based_fields b) as (-> & -> & _).
  destruct (PredictionFacts.temperature_risks_unit a) as [[Hha _] [Hca _]].
  destruct (PredictionFacts.temperature_risks_unit b) as [[Hhb _] [Hcb _]].
  revert Hha Hca Hhb Hcb. unfold temperature_risks. rewrite Ha, Hb. cbn.
  destruct (Qeq_bool ta 0) eqn:Za; destruct (Qeq_bool tb 0) eqn:Zb;
    rewrite ?Qeq_bool_iff in *; cbn;
    try destruct (py_gt ta 35) eqn:Ga; try destruct (py_lt ta (-10)) eqn:La;
    try destruct (py_gt tb 35) eqn:Gb; try destruct (py_lt tb (-10)) eqn:Lb;
    rewrite ?py_gt_true, ?py_gt_false, ?py_lt_true, ?py_lt_false in *;
    cbn; intros Hha Hca Hhb Hcb;
    try (split; lra);
    split; try lra; apply clamp_mono, div_le_mono; lra.
Qed.

Lemma warmer_reading_is_monotone_witness :
  heat_wave_risk (_generate_default_risk_assessment
                    (observation (Some 38) None None None))
  <= heat_wave_risk (_generate_default_risk_assessment
                       (observation (Some 41) None None None)).
Proof.
  apply (warmer_reading_is_monotone
           (observation (Some 38) None None None)
           (observation (Some 41) None None None) 38 41);
    first [reflexivity | lra].
Defined.

(** X10. The clamped rules reach exactly 1 at fixed readings: heat-wave
    from 45 degrees up, cold-wave from -30 degrees down, storm from a wind
    speed of 35 up, flood from a precipitation of 150 up. *)
Theorem scores_saturate (cd : ClimateData) :
  let r := _generate_default_risk_assessment cd in
  (forall t, temperature cd = Some t -> 45 <= t -> heat_wave_risk r = 1)
  /\ (forall t, temperature cd = Some t -> t <= -30 -> cold_wave_risk r = 1)
  /\ (forall w, wind_speed cd = Some w -> 35 <= w -> storm_risk r = 1)
  /\ (forall p, precipitation cd = Some p -> 150 <= p -> flood_risk r = 1).
Proof.
  cbv zeta.
  destruct (rule_based_fields cd) as (-> & -> & -> & _ & -> & _).
  unfold temperature_risks, precipitation_risks, wind_risk.
  split; [| split; [| split]].
  - intros t -> Ht. rewrite if_truthy_nonzero by lra.
    assert (E : py_gt t 35 = true) by (apply py_gt_true; lra).
    rewrite E. cbn. apply clamp_saturates, one_le_div; lra.
  - intros t -> Ht. rewrite if_truthy_nonzero by lra.
    assert (E : py_gt t 35 = false) by (apply py_gt_false; lra).
    assert (E' : py_lt t (-10) = true) by (apply py_lt_true; lra).
    rewrite E, E'. cbn. apply clamp_saturates, one_le_div; lra.
  - intros w -> Hw. rewrite if_truthy_nonzero by lra.
    assert (E : py_gt w 15 = true) by (apply py_gt_true; lra).
    rewrite E. apply clamp_saturates, one_le_div; lra.
  - intros p -> Hp. rewrite if_truthy_nonzero by lra.
    assert (E : py_gt p 50 = true) by (apply py_gt_true; lra).
    rewrite E. cbn. apply clamp_saturates, one_le_div; lra.
Qed.

Lemma scores_saturate_witness :
  heat_wave_risk (_generate_default_risk_assessment
                    (observation (Some 50) None None None)) = 1.
Proof.
  apply (proj1 (scores_saturate (observation (Some 50) None None None)) 50);
    first [reflexivity | lra].
Defined.

End RuleFacts.

(** ** More on the dispatcher and the matcher *)

Module PassFacts.
Import AlertSvc UpdatePass.

(** *** The update pass *)

Lemma update_loop_run p alert msg us :
  forall r pushed,
    fold_left (update_one p alert msg) us (r, pushed)
    = ({| notifications_sent :=
            notifications_sent r
            + length (List.filter (update_delivered p alert msg) us);
          errors := errors r;
          channels_used := channels_used r |}, pushed ++ us).
Proof.
  induction us as [| u us IH]; intros r pushed.
  - cbn. rewrite Nat.add_0_r, app_nil_r. now destruct r.
  - cbn [fold_left List.filter].
    replace (update_one p alert msg (r, pushed) u)
      with (if update_delivered p alert msg u
            then ({| notifications_sent := S (notifications_sent r);
                     errors := errors r;
                     channels_used := channels_used r |}, pushed ++ [u])
            else (r, pushed ++ [u])).
    2: { unfold update_one, _send_update_push_notification, update_delivered.
         now destruct (p u alert msg). }
    destruct (update_delivered p alert msg u); rewrite IH;
      cbn [notifications_sent errors channels_used length];
      rewrite <- app_assoc; cbn [app]; f_equal; f_equal; lia.
Qed.

(** X11. For an alert with a status, the update pass starts exactly one
    update push per geospatially matched user, in their order, and
    nothing for anyone else (no e-mail, no SMS, no agency notification):
    a user without a registered location hears of no update.  It counts
    the delivered pushes, records no error and reports no channel.  For an
    alert whose status is NULL it sends nothing and reports the one
    error. *)
Theorem update_pass_pushes_matched_users (p : UpdateProvider) (g : Geo)
  (alert : EmergencyAlert) (db : Db) :
  let out := send_alert_update_notifications p g alert db in
  let affected := _find_affected_users g alert db in
  (forall s, status alert = Some s ->
     exists msg,
       _get_update_message alert = Return msg
       /\ snd out = affected
       /\ notifications_sent (fst out)
          = length (List.filter (update_delivered p alert msg) affected)
       /\ (notifications_sent (fst out) <= length affected)%nat
       /\ errors (fst out) = []
       /\ channels_used (fst out) = None
       /\ (forall u, default_latitude u = None \/ default_longitude u = None ->
                     ~ In u (snd out)))
  /\ (status alert = None ->
      snd out = [] /\ notifications_sent (fst out) = 0%nat
      /\ length (errors (fst out)) = 1%nat).
Proof.
  cbv zeta. unfold send_alert_update_notifications, _get_update_message.
  split.
  - intros s ->. eexists. split; [reflexivity |].
    rewrite update_loop_run. cbn.
    repeat split; try reflexivity.
    + apply List.filter_length_le.
    + intros u Hu. now apply MatcherFacts.unlocated_never_matched.
  - intros ->. repeat split.
Qed.

Lemma update_pass_pushes_matched_users_witness :
  let alert := Scenario.alert_at_origin CRITICAL RESOLVED None in
  let db := Scenario.db_of [Scenario.citizen_nearby; Scenario.agency_user] [] in
  exists msg,
    _get_update_message alert = Return msg
    /\ snd (send_alert_update_notifications (fun _ _ _ => Return tt)
              Scenario.example_geo alert db)
       = _find_affected_users Scenario.example_geo alert db.
Proof.
  cbv zeta.
  destruct (proj1 (update_pass_pushes_matched_users
                     (fun _ _ _ => Return tt) Scenario.example_geo
                     (Scenario.alert_at_origin CRITICAL RESOLVED None)
                     (Scenario.db_of [Scenario.citizen_nearby;
                                      Scenario.agency_user] []))
                  RESOLVED eq_refl)
    as (msg & Hmsg & Hpushed & _).
  exists msg. split; [exact Hmsg | exact Hpushed].
Defined.

(** *** The order of the rows *)

Lemma filter_Permutation_list {A} (f : A -> bool) (l k : list A) :
  Permutation l k -> Permutation (List.filter f l) (List.filter f k).
Proof.
  induction 1 as [| x l k _ IH | x y l | l k m _ IH1 _ IH2]; cbn.
  - constructor.
  - destruct (f x); [now constructor | exact IH].
  - destruct (f x), (f y); try reflexivity. constructor.
  - now transitivity (List.filter f k).
Qed.

Lemma flat_map_Permutation_list {A B} (f : A -> list B) (l k : list A) :
  Permutation l k -> Permutation (flat_map f l) (flat_map f k).
Proof.
  induction 1 as [| x l k _ IH | x y l | l k m _ IH1 _ IH2]; cbn.
  - constructor.
  - now apply Permutation_app_head.
  - rewrite !app_assoc. apply Permutation_app_tail, Permutation_app_comm.
  - now transitivity (flat_map f k).
Qed.

Lemma affected_Permutation g alert db db' :
  Permutation (users db) (users db') ->
  Permutation (_find_affected_users g alert db)
              (_find_affected_users g alert db').
Proof.
  intros Hperm. unfold _find_affected_users, located_users.
  now do 2 apply filter_Permutation_list.
Qed.

(** X12. The order of the rows of the users table does not matter to a
    dispatch pass: with the rows permuted, the same sends are started (in
    another order), the count of successful sends is the same, and the
    error list is the same. *)
Theorem pass_independent_of_row_order (p : Providers) (g : Geo)
  (alert : EmergencyAlert) (db db' : Db) :
  Permutation (users db) (users db') ->
  let out := send_alert_notifications p g alert db in
  let out' := send_alert_notifications p g alert db' in
  Permutation (snd out) (snd out')
  /\ notifications_sent (fst out) = notifications_sent (fst out')
  /\ errors (fst out) = errors (fst out').
Proof.
  intros Hperm. cbv zeta.
  pose proof (affected_Permutation g alert db db' Hperm) as Haff.
  assert (Hsends : Permutation (recipient_sends g alert db)
                               (recipient_sends g alert db')).
  { unfold recipient_sends. now apply flat_map_Permutation_list. }
  assert (Hgov : Permutation (government_users db) (government_users db')).
  { unfold government_users. now apply filter_Permutation_list. }
  destruct (_find_affected_users g alert db) as [| u us] eqn:Hdb.
  - apply Permutation_nil in Haff.
    rewrite (DispatchFacts.pass_without_recipients p g alert db Hdb).
    rewrite (DispatchFacts.pass_without_recipients p g alert db' Haff).
    repeat split. reflexivity.
  - assert (Hne : _find_affected_users g alert db <> [])
      by (rewrite Hdb; discriminate).
    assert (Hne' : _find_affected_users g alert db' <> []).
    { intros Hnil. rewrite Hnil in Haff.
      symmetry in Haff. apply Permutation_nil in Haff. discriminate Haff. }
    rewrite (DispatchFacts.pass_with_recipients p g alert db Hne).
    rewrite (DispatchFacts.pass_with_recipients p g alert db' Hne').
    cbn [fst snd].
    rewrite !DispatchFacts.run_sent, !DispatchFacts.run_errors.
    split; [| split; [| reflexivity]].
    + apply Permutation_app; [exact Hsends |].
      now apply flat_map_Permutation_list.
    + cbn. unfold successes.
      apply Permutation_length, filter_Permutation_list, Hsends.
Qed.

Lemma pass_independent_of_row_order_witness :
  let alert := Scenario.alert_at_origin CRITICAL ACTIVE None in
  notifications_sent
    (fst (send_alert_notifications Scenario.all_deliver Scenario.example_geo
            alert
            (Scenario.db_of [Scenario.citizen_nearby; Scenario.agency_user] [])))
  = notifications_sent
      (fst (send_alert_notifications Scenario.all_deliver Scenario.example_geo
              alert
              (Scenario.db_of [Scenario.agency_user; Scenario.citizen_nearby] []))).
Proof.
  cbv zeta.
  apply (pass_independent_of_row_order Scenario.all_deliver
           Scenario.example_geo
           (Scenario.alert_at_origin CRITICAL ACTIVE None)
           (Scenario.db_of [Scenario.citizen_nearby; Scenario.agency_user] [])
           (Scenario.db_of [Scenario.agency_user; Scenario.citizen_nearby] [])).
  cbn. apply perm_swap.
Defined.

(** *** Bounds on the aggregate *)

Lemma user_attempts_length alert u :
  (length (user_attempts alert u) <= 3)%nat
  /\ (is_critical (severity alert) = false ->
      (length (user_attempts alert u) <= 2)%nat).
Proof.
  unfold user_attempts.
  destruct (truthy_str (email u)), (is_critical (severity alert)),
    (truthy_opt_str (phone_number u)); cbn; split; intros; lia || discriminate.
Qed.

Lemma flat_map_length_bound {A B} (f : A -> list B) (n : nat) (l : list A) :
  (forall x, length (f x) <= n)%nat ->
  (length (flat_map f l) <= n * length l)%nat.
Proof.
  intros Hf. induction l as [| x l IH]; cbn; [lia |].
  rewrite List.length_app. specialize (Hf x). lia.
Qed.

Lemma pass_sent p g alert db :
  notifications_sent (fst (send_alert_notifications p g alert db))
  = successes p alert (recipient_sends g alert db).
Proof.
  destruct (_find_affected_users g alert db) as [| u us] eqn:Haff.
  - rewrite (DispatchFacts.pass_without_recipients p g alert db Haff).
    unfold recipient_sends. now rewrite Haff.
  - rewrite DispatchFacts.pass_with_recipients by (rewrite Haff; discriminate).
    cbn [fst]. now rewrite DispatchFacts.run_sent.
Qed.

(** X13. A dispatch pass counts at most three successful sends per
    matched user, and at most two when the alert is not critical; the
    count never exceeds the number of sends started. *)
Theorem notifications_sent_bounded (p : Providers) (g : Geo)
  (alert : EmergencyAlert) (db : Db) :
  let out := send_alert_notifications p g alert db in
  let affected := _find_affected_users g alert db in
  (notifications_sent (fst out) <= 3 * length affected)%nat
  /\ (severity alert <> CRITICAL ->
      (notifications_sent (fst out) <= 2 * length affected)%nat)
  /\ (notifications_sent (fst out) <= length (snd out))%nat.
Proof.
  cbv zeta. rewrite pass_sent.
  assert (Hle : (successes p alert (recipient_sends g alert db)
                 <= length (recipient_sends g alert db))%nat)
    by apply List.filter_length_le.
  split; [| split].
  - etransitivity; [exact Hle |]. unfold recipient_sends.
    apply flat_map_length_bound. intros u. apply user_attempts_length.
  - intros Hsev. etransitivity; [exact Hle |]. unfold recipient_sends.
    apply flat_map_length_bound. intros u. apply user_attempts_length.
    destruct (is_critical (severity alert)) eqn:E; [| reflexivity].
    apply DispatchFacts.is_critical_spec in E. contradiction.
  - destruct (_find_affected_users g alert db) as [| u us] eqn:Haff.
    + unfold successes, recipient_sends. rewrite Haff. cbn. lia.
    + rewrite DispatchFacts.pass_with_recipients by (rewrite Haff; discriminate).
      cbn [snd]. rewrite List.length_app. lia.
Qed.

Lemma notifications_sent_bounded_witness :
  (notifications_sent
     (fst (send_alert_notifications Scenario.all_deliver Scenario.example_geo
             (Scenario.alert_at_origin HIGH ACTIVE None)
             (Scenario.db_of [Scenario.citizen_nearby] [])))
   <= 2 * length (_find_affected_users Scenario.example_geo
                    (Scenario.alert_at_origin HIGH ACTIVE None)
                    (Scenario.db_of [Scenario.citizen_nearby] [])))%nat.
Proof.
  apply (proj1 (proj2 (notifications_sent_bounded Scenario.all_deliver
                         Scenario.example_geo
                         (Scenario.alert_at_origin HIGH ACTIVE None)
                         (Scenario.db_of [Scenario.citizen_nearby] [])))).
  discriminate.
Defined.

(** *** Who is contacted *)

Lemma user_attempts_user alert u a :
  In a (user_attempts alert u) -> snd a = u /\ fst a <> GovEmail.
Proof.
  unfold user_attempts.
  destruct (truthy_str (email u)),
    (is_critical (severity alert) && truthy_opt_str (phone_number u)); cbn;
    intros Hin;
    repeat match goal with
           | H : _ \/ _ |- _ => destruct H as [H | H]
           | H : False |- _ => destruct H
           end;
    subst a; cbn; (split; [reflexivity | discriminate]).
Qed.

(** X14. A dispatch pass contacts only active users of the table: every
    send it starts goes to a row of the users table whose [is_active] is
    true.  The government e-mail goes only to users with the government
    or emergency-responder role, and every other send that reaches a user
    without registered coordinates is part of the agency loop, that is,
    goes to such a role as well. *)
Theorem only_active_users_contacted (p : Providers) (g : Geo)
  (alert : EmergencyAlert) (db : Db) (c : Channel) (u : User) :
  In (c, u) (snd (send_alert_notifications p g alert db)) ->
  In u (users db) /\ is_active u = Some true
  /\ (c = GovEmail \/ default_latitude u = None \/ default_longitude u = None ->
      role u = Some GOVERNMENT \/ role u = Some EMERGENCY_RESPONDER).
Proof.
  destruct (_find_affected_users g alert db) as [| u0 us] eqn:Haff.
  - now rewrite (DispatchFacts.pass_without_recipients p g alert db Haff).
  - rewrite DispatchFacts.pass_with_recipients by (rewrite Haff; discriminate).
    cbn [snd]. unfold recipient_sends.
    rewrite in_app_iff, !in_flat_map.
    intros [(v & Hv & Hin) | (v & Hv & Hin)].
    + apply user_attempts_user in Hin as [Heq Hchan]. cbn in Heq, Hchan.
      subst v.
      apply MatcherFacts.affected_users_spec in Hv as [Hloc _].
      apply MatcherFacts.located_users_spec in Hloc
        as (Hrow & Hact & Hlat & Hlon).
      split; [exact Hrow |]. split; [exact Hact |].
      intros [-> | [Hnone | Hnone]]; congruence.
    + apply DispatchFacts.government_users_spec in Hv as (Hrow & Hact & Hrole).
      assert (v = u) as ->.
      { cbn in Hin. destruct Hin as [[= _ ->] | [[= _ ->] | []]]; reflexivity. }
      auto.
Qed.

Lemma only_active_users_contacted_witness :
  is_active Scenario.agency_user = Some true
  /\ In Scenario.agency_user
        (users (Scenario.db_of [Scenario.citizen_nearby; Scenario.agency_user] [])).
Proof.
  destruct (only_active_users_contacted Scenario.all_deliver
              Scenario.example_geo
              (Scenario.alert_at_origin CRITICAL ACTIVE None)
              (Scenario.db_of [Scenario.citizen_nearby; Scenario.agency_user] [])
              GovEmail Scenario.agency_user)
    as (Hrow & Hact & _).
  - cbn. right. right. right. left. reflexivity.
  - split; [exact Hact | exact Hrow].
Defined.

(** *** The channels reported *)

(** X15. The channel names an aggregate reports are among "push",
    "email" and "sms", and "sms" is reported only for a critical alert. *)
Theorem channels_used_names (p : Providers) (g : Geo)
  (alert : EmergencyAlert) (db : Db) (names : list pystr) (name : pystr) :
  channels_used (fst (send_alert_notifications p g alert db)) = Some names ->
  In name names ->
  (name = lit "push" \/ name = lit "email" \/ name = lit "sms")
  /\ (name = lit "sms" -> severity alert = CRITICAL).
Proof.
  destruct (_find_affected_users g alert db) as [| u0 us] eqn:Haff.
  - rewrite (DispatchFacts.pass_without_recipients p g alert db Haff).
    discriminate.
  - rewrite DispatchFacts.pass_with_recipients by (rewrite Haff; discriminate).
    cbn [fst].
    rewrite (DispatchFacts.run_channels p alert _ _ []) by reflexivity.
    intros [= <-] Hname.
    apply DispatchFacts.used_names_In in Hname
      as [[] | ([ch v] & Hin & _ & <-)].
    unfold recipient_sends in Hin. apply in_flat_map in Hin as (w & _ & Hin).
    unfold user_attempts in Hin. cbn [fst].
    destruct (truthy_str (email w));
      destruct (is_critical (severity alert) && truthy_opt_str (phone_number w))
        eqn:Hsms;
      cbn in Hin;
      repeat match goal with
             | H : _ \/ _ |- _ => destruct H as [H | H]
             | H : (_, _) = (_, _) |- _ => injection H as <- <-
             | H : False |- _ => destruct H
             end;
      cbn; (split; [tauto |]); intros Hname;
      first [ discriminate Hname
            | apply andb_true_iff in Hsms as [Hcrit _];
              now apply DispatchFacts.is_critical_spec ].
Qed.

Lemma channels_used_names_witness :
  lit "sms" = lit "push" \/ lit "sms" = lit "email" \/ lit "sms" = lit "sms".
Proof.
  refine (proj1 (channels_used_names Scenario.all_deliver Scenario.example_geo
                   (Scenario.alert_at_origin CRITICAL ACTIVE None)
                   (Scenario.db_of [Scenario.citizen_nearby] [])
                   [lit "push"; lit "email"; lit "sms"] (lit "sms") _ _)).
  - reflexivity.
  - cbn. tauto.
Defined.

(** *** The head of the SMS text *)

(** X16. Shortening the SMS text never cuts into its head: whatever the
    title, the location, the contact and the identifier, the text starts
    with the siren sign, the severity in capitals and the word ALERT. *)
Theorem sms_header_survives (alert : EmergencyAlert) :
  exists rest, sms_content alert = sms_header alert ++ rest.
Proof.
  unfold sms_content.
  assert (Hmsg : exists tail, sms_message alert = sms_header alert ++ tail).
  { unfold sms_message, sms_header. eexists.
    rewrite <- !app_assoc. reflexivity. }
  destruct Hmsg as [tail Hmsg]. rewrite Hmsg.
  destruct (160 <? length (sms_header alert ++ tail))%nat;
    [| now exists tail].
  unfold slice_to.
  assert (Hshort : (length (sms_header alert) <= 157)%nat).
  { unfold sms_header. destruct (severity alert); cbn; lia. }
  rewrite firstn_app, (firstn_all2 (sms_header alert)) by exact Hshort.
  rewrite <- app_assoc. eauto.
Qed.

(** *** The alert's radius *)

(** X17. Between two alerts at the same place, the one whose resolved
    radius ([alert.radius or 50]) is larger matches every user the other
    one matches; in particular an alert with no radius, with radius 0 and
    with radius 50 match the same users. *)
Theorem wider_alert_matches_more (g : Geo) (a b : EmergencyAlert) (db : Db) :
  latitude a = latitude b -> longitude a = longitude b ->
  alert_radius a <= alert_radius b ->
  incl (_find_affected_users g a db) (_find_affected_users g b db).
Proof.
  intros Hlat Hlon Hradius u.
  rewrite !MatcherFacts.affected_users_spec. intros [Hloc Hin].
  split; [exact Hloc |]. revert Hin.
  unfold within_radius, effective_radius. rewrite Hlat, Hlon.
  destruct (default_latitude u ≫= py_float g) as [lat |]; [| discriminate].
  destruct (default_longitude u ≫= py_float g) as [lon |]; [| discriminate].
  cbn.
  destruct (geodesic_km g (latitude b, longitude b) (lat, lon)) as [d |];
    [| discriminate].
  cbn. intros [= Hin]. f_equal.
  apply py_le_true in Hin. apply py_le_true.
  apply Qle_trans with (py_max (alert_radius a) (user_radius u));
    [exact Hin |].
  unfold py_max.
  destruct (py_gt (user_radius u) (alert_radius a)) eqn:Ea,
           (py_gt (user_radius u) (alert_radius b)) eqn:Eb;
    rewrite ?py_gt_true, ?py_gt_false in *; lra.
Qed.

Lemma wider_alert_matches_more_witness :
  incl (_find_affected_users Scenario.example_geo
          (Scenario.alert_at_origin HIGH ACTIVE (Some 0))
          (Scenario.db_of [Scenario.citizen_nearby] []))
       (_find_affected_users Scenario.example_geo
          (Scenario.alert_at_origin HIGH ACTIVE None)
          (Scenario.db_of [Scenario.citizen_nearby] [])).
Proof.
  apply wider_alert_matches_more; try reflexivity.
  vm_compute. discriminate.
Defined.

End PassFacts.

(** ** More on the endpoints *)

Module EndpointFacts.
Import AlertSvc Endpoint Listing.

(** *** What an update can do to the table *)

(** The table after an update: unchanged, or one row rewritten. *)
Lemma update_outcome db user id upd now :
  let out := update_emergency_alert db user id upd now in
  (fst (fst out) = db /\ snd out = []
   /\ (snd (fst out) = Http403 /\ may_manage_alerts user = false
       \/ snd (fst out) = Http404 /\ may_manage_alerts user = true
          /\ alerts db !! id = None
       \/ snd (fst out) = Http500 /\ may_manage_alerts user = true
          /\ exists alert, alerts db !! id = Some alert
                           /\ updated_row alert upd now = None))
  \/ (exists alert alert',
        may_manage_alerts user = true
        /\ alerts db !! id = Some alert
        /\ updated_row alert upd now = Some alert'
        /\ out = ({| alerts := <[id := alert']> (alerts db);
                     users := users db |}, Http500, [])).
Proof.
  cbv zeta. unfold update_emergency_alert.
  destruct (may_manage_alerts user) eqn:Hrole; cbn [negb].
  - destruct (alerts db !! id) as [alert |] eqn:Hfound.
    + destruct (updated_row alert upd now) as [alert' |] eqn:Hrow.
      * right. exists alert, alert'. cbn. auto.
      * left. cbn. repeat split. right. right. eauto.
    + left. cbn. repeat split. right. left. auto.
  - left. cbn. repeat split. left. auto.
Qed.

Lemma updated_row_keeps alert upd now alert' :
  updated_row alert upd now = Some alert' ->
  alert_id alert' = alert_id alert
  /\ latitude alert' = latitude alert
  /\ longitude alert' = longitude alert
  /\ radius alert' = radius alert
  /\ location_name alert' = location_name alert
  /\ risk_type alert' = risk_type alert.
Proof.
  unfold updated_row. intros H.
  destruct (set_required (u_title upd) (title alert)); [| discriminate H].
  destruct (set_required (u_description upd) (description alert));
    [| discriminate H].
  destruct (set_required (u_severity upd) (severity alert));
    [| discriminate H].
  cbn in H. injection H as <-. repeat split.
Qed.

(** X18. An update never adds an alert to the table and never removes
    one: the identifiers stored are the same before and after, whatever
    the request; the users table is untouched; and if every alert is
    stored under its own identifier before, so it is after. *)
Theorem update_keeps_the_identifiers (db : Db) (user : User) (id : pystr)
  (upd : EmergencyAlertUpdate) (now : Z) :
  let db' := fst (fst (update_emergency_alert db user id upd now)) in
  dom (alerts db') = dom (alerts db)
  /\ users db' = users db
  /\ (keys_consistent db -> keys_consistent db').
Proof.
  cbv zeta.
  destruct (update_outcome db user id upd now)
    as [(-> & _) | (alert & alert' & _ & Hfound & Hrow & ->)];
    [repeat split; auto |].
  cbn [fst alerts users]. split; [| split; [reflexivity |]].
  - rewrite dom_insert_L.
    assert (Hin : id ∈ dom (alerts db)) by (apply elem_of_dom; eauto).
    apply set_eq. intros k. rewrite elem_of_union, elem_of_singleton.
    split; [intros [-> | Hk]; assumption | auto].
  - intros Hkeys k a. unfold keys_consistent in *. cbn [alerts].
    destruct (decide (id = k)) as [<- | Hne].
    + rewrite lookup_insert_eq. intros [= <-].
      destruct (updated_row_keeps _ _ _ _ Hrow) as [-> _].
      now apply Hkeys.
    + rewrite lookup_insert_ne by exact Hne. apply Hkeys.
Qed.

(** X19. An update never moves an alert: whatever the request, every
    stored alert keeps its identifier, its latitude and longitude, its
    radius, its location name and its risk type. *)
Theorem update_never_moves_an_alert (db : Db) (user : User) (id : pystr)
  (upd : EmergencyAlertUpdate) (now : Z) (k : pystr) (after : EmergencyAlert) :
  alerts (fst (fst (update_emergency_alert db user id upd now))) !! k
  = Some after ->
  exists before,
    alerts db !! k = Some before
    /\ alert_id after = alert_id before
    /\ latitude after = latitude before
    /\ longitude after = longitude before
    /\ radius after = radius before
    /\ location_name after = location_name before
    /\ risk_type after = risk_type before.
Proof.
  destruct (update_outcome db user id upd now)
    as [(-> & _) | (alert & alert' & _ & Hfound & Hrow & ->)].
  - intros Hk. exists after. repeat split. exact Hk.
  - cbn [fst alerts]. destruct (decide (id = k)) as [<- | Hne].
    + rewrite lookup_insert_eq. intros [= <-]. exists alert.
      split; [exact Hfound |]. exact (updated_row_keeps _ _ _ _ Hrow).
    + rewrite lookup_insert_ne by exact Hne. intros Hk.
      exists after. repeat split. exact Hk.
Qed.

Lemma update_never_moves_an_alert_witness :
  let alert := Scenario.alert_at_origin HIGH RESOLVED (Some 10) in
  let db := Scenario.db_of [] [alert] in
  exists before,
    alerts db !! alert_id alert = Some before
    /\ alert_id alert = alert_id before.
Proof.
  cbv zeta.
  destruct (update_never_moves_an_alert
              (Scenario.db_of [] [Scenario.alert_at_origin HIGH RESOLVED (Some 10)])
              Scenario.agency_user
              (alert_id (Scenario.alert_at_origin HIGH RESOLVED (Some 10)))
              (Scenario.set_status ACTIVE) 100
              (alert_id (Scenario.alert_at_origin HIGH RESOLVED (Some 10)))
              {| alert_id := alert_id (Scenario.alert_at_origin HIGH RESOLVED (Some 10));
                 title := title (Scenario.alert_at_origin HIGH RESOLVED (Some 10));
                 description := description (Scenario.alert_at_origin HIGH RESOLVED (Some 10));
                 severity := HIGH;
                 status := Some ACTIVE;
                 latitude := 0; longitude := 0; radius := Some 10;
                 location_name := None;
                 risk_type := Some (lit "flood");
                 end_time := None; expires_at := None; contact_info := None;
                 updated_at := Some 100%Z |})
    as (before & Hbefore & Hid & _).
  - reflexivity.
  - exists before. split; [exact Hbefore | exact Hid].
Defined.

(** *** The answers of an update *)

(** X20. An update never answers 200 and queues no background task, so
    neither the ledger update nor the update notifications are started:
    the answer is 403 for a caller without the role, 404 for a caller
    with the role and an unknown identifier, and 500 otherwise, also when
    the row has been written ([alert.dict()] raises after the commit).
    The table changes in that last case only. *)
Theorem update_answers_and_tasks (db : Db) (user : User) (id : pystr)
  (upd : EmergencyAlertUpdate) (now : Z) :
  let out := update_emergency_alert db user id upd now in
  snd out = []
  /\ (forall alert, snd (fst out) <> Http200 alert)
  /\ (snd (fst out) = Http403 <-> may_manage_alerts user = false)
  /\ (snd (fst out) = Http404
      <-> may_manage_alerts user = true /\ alerts db !! id = None)
  /\ (fst (fst out) <> db ->
      snd (fst out) = Http500
      /\ exists alert alert',
           alerts db !! id = Some alert
           /\ updated_row alert upd now = Some alert').
Proof.
  cbv zeta.
  destruct (update_outcome db user id upd now)
    as [(Hdb & Htasks & Hanswer) | (alert & alert' & Hrole & Hfound & Hrow & ->)].
  - rewrite Hdb, Htasks.
    destruct Hanswer as [[-> Hrole] | [(-> & Hrole & Hnone)
                                      | (-> & Hrole & a & Hsome & _)]];
      repeat split; try discriminate; try congruence; auto;
      try (intros [? ?]; congruence); try (intros []; congruence).
  - cbn [fst snd]. rewrite Hrole, Hfound.
    repeat split; try discriminate; try congruence; eauto.
    intros [_ ?]; congruence.
Qed.

Lemma update_answers_and_tasks_witness :
  let alert := Scenario.alert_at_origin HIGH RESOLVED None in
  let db := Scenario.db_of [] [alert] in
  snd (fst (update_emergency_alert db Scenario.agency_user (alert_id alert)
              (Scenario.set_status ACTIVE) 100)) = Http500.
Proof.
  cbv zeta.
  apply (proj2 (proj2 (proj2 (proj2
           (update_answers_and_tasks
              (Scenario.db_of [] [Scenario.alert_at_origin HIGH RESOLVED None])
              Scenario.agency_user
              (alert_id (Scenario.alert_at_origin HIGH RESOLVED None))
              (Scenario.set_status ACTIVE) 100))))).
  vm_compute. discriminate.
Defined.

(** *** The same request twice *)

Lemma updated_row_idempotent alert upd now alert' :
  updated_row alert upd now = Some alert' ->
  updated_row alert' upd now = Some alert'.
Proof.
  unfold updated_row, set_required, set_nullable. intros H.
  destruct (u_title upd) as [[t |] |]; try discriminate H;
    destruct (u_description upd) as [[d |] |]; try discriminate H;
    destruct (u_severity upd) as [[s |] |]; try discriminate H;
    cbn in H |- *; injection H as <-; cbn;
    destruct (u_status upd), (u_end_time upd), (u_expires_at upd),
      (u_contact_info upd); reflexivity.
Qed.

(** X21. Serving the same update request twice (at the same time stamp)
    leaves the table as serving it once does. *)
Theorem update_is_idempotent (db : Db) (r : Request) :
  serve (serve db r) r = serve db r.
Proof.
  unfold serve at 2 3.
  destruct (update_outcome db (req_user r) (req_id r) (req_update r) (req_now r))
    as [(Hdb & _) | (alert & alert' & Hrole & Hfound & Hrow & Hout)].
  - rewrite Hdb. unfold serve. exact Hdb.
  - rewrite Hout. cbn [fst]. unfold serve, update_emergency_alert.
    cbn [alerts users]. rewrite Hrole, lookup_insert_eq.
    rewrite (updated_row_idempotent _ _ _ _ Hrow). cbn.
    now rewrite insert_insert_eq.
Qed.

(** *** Reading back *)

(** X22. After an update by a caller with the role that nulls no required
    column, reading the alert returns the row with every field of the
    request written and the other fields as they were; reading any other
    alert returns what it returned before. *)
Theorem read_back_after_update (db : Db) (user : User) (id : pystr)
  (upd : EmergencyAlertUpdate) (now : Z) (alert alert' : EmergencyAlert) :
  may_manage_alerts user = true ->
  alerts db !! id = Some alert ->
  updated_row alert upd now = Some alert' ->
  let db' := fst (fst (update_emergency_alert db user id upd now)) in
  get_emergency_alert db' id = Http200 alert'
  /\ Some (title alert') = set_required (u_title upd) (title alert)
  /\ Some (description alert')
     = set_required (u_description upd) (description alert)
  /\ Some (severity alert') = set_required (u_severity upd) (severity alert)
  /\ status alert' = set_nullable (u_status upd) (status alert)
  /\ end_time alert' = set_nullable (u_end_time upd) (end_time alert)
  /\ expires_at alert' = set_nullable (u_expires_at upd) (expires_at alert)
  /\ contact_info alert'
     = set_nullable (u_contact_info upd) (contact_info alert)
  /\ updated_at alert' = Some now
  /\ (forall other, other <> id ->
        get_emergency_alert db' other = get_emergency_alert db other).
Proof.
  intros Hrole Hfound Hrow. cbv zeta.
  unfold update_emergency_alert, get_emergency_alert.
  rewrite Hrole, Hfound, Hrow. cbn. rewrite lookup_insert_eq.
  split; [reflexivity |].
  assert (Hfields :
            Some (title alert') = set_required (u_title upd) (title alert)
            /\ Some (description alert')
               = set_required (u_description upd) (description alert)
            /\ Some (severity alert')
               = set_required (u_severity upd) (severity alert)
            /\ status alert' = set_nullable (u_status upd) (status alert)
            /\ end_time alert' = set_nullable (u_end_time upd) (end_time alert)
            /\ expires_at alert'
               = set_nullable (u_expires_at upd) (expires_at alert)
            /\ contact_info alert'
               = set_nullable (u_contact_info upd) (contact_info alert)
            /\ updated_at alert' = Some now).
  { unfold updated_row in Hrow.
    destruct (set_required (u_title upd) (title alert)); [| discriminate Hrow].
    destruct (set_required (u_description upd) (description alert));
      [| discriminate Hrow].
    destruct (set_required (u_severity upd) (severity alert));
      [| discriminate Hrow].
    cbn in Hrow. injection Hrow as <-. repeat split. }
  destruct Hfields as (? & ? & ? & ? & ? & ? & ? & ?).
  repeat split; try assumption.
  intros other Hother. now rewrite lookup_insert_ne.
Qed.

Lemma read_back_after_update_witness :
  let alert := Scenario.alert_at_origin HIGH RESOLVED None in
  let db := Scenario.db_of [] [alert] in
  exists alert',
    get_emergency_alert
      (fst (fst (update_emergency_alert db Scenario.agency_user
                   (alert_id alert) (Scenario.set_status ACTIVE) 100)))
      (alert_id alert) = Http200 alert'
    /\ status alert' = Some ACTIVE.
Proof.
  cbv zeta.
  destruct (updated_row (Scenario.alert_at_origin HIGH RESOLVED None)
              (Scenario.set_status ACTIVE) 100) as [alert' |] eqn:Hrow;
    [| discriminate Hrow].
  exists alert'.
  destruct (read_back_after_update
              (Scenario.db_of [] [Scenario.alert_at_origin HIGH RESOLVED None])
              Scenario.agency_user
              (alert_id (Scenario.alert_at_origin HIGH RESOLVED None))
              (Scenario.set_status ACTIVE) 100
              (Scenario.alert_at_origin HIGH RESOLVED None) alert'
              eq_refl eq_refl Hrow)
    as (Hget & _ & _ & _ & Hstatus & _).
  split; [exact Hget | exact Hstatus].
Defined.

(** *** Creating an alert *)

(** X23. Creating an alert never stores one: a caller without the role is
    answered 403, and for every other caller the call of the model's
    constructor raises, because the keyword [issuer] is given twice (once
    spelled out, once among the keys of [alert.dict()]); the answer is 500,
    the table is as before and no background task is queued, so no
    notification is dispatched. *)
Theorem create_never_stores (db : Db) (user : User)
  (alert : EmergencyAlertCreate) (new_id : pystr) :
  let out := create_emergency_alert db user alert new_id in
  repeated_keyword explicit_keywords dict_keys = Some "issuer"%string
  /\ fst (fst out) = db
  /\ snd out = []
  /\ snd (fst out) = (if may_manage_alerts user then Http500 else Http403).
Proof.
  cbv zeta. unfold create_emergency_alert.
  assert (Hrepeated : repeated_keyword explicit_keywords dict_keys
                      = Some "issuer"%string) by reflexivity.
  rewrite Hrepeated. now destruct (may_manage_alerts user).
Qed.

(** *** Listing alerts *)

Lemma filter_by_location_run g loc q alerts kept :
  filter_by_location g loc q alerts = Return kept ->
  kept = List.filter (listed_near g q loc) alerts.
Proof.
  revert kept. induction alerts as [| alert rest IH]; intros kept; cbn.
  - now intros [= <-].
  - unfold listed_near at 1.
    destruct (geodesic_km g loc (latitude alert, longitude alert)) as [d |];
      [| discriminate].
    destruct (filter_by_location g loc q rest) as [kept' | e];
      [| discriminate].
    intros [= <-]. rewrite (IH kept' eq_refl).
    now destruct (py_le d (listed_radius q alert)).
Qed.

Lemma get_emergency_alerts_unpaged g ilike rows q :
  get_emergency_alerts g ilike rows q
  = match unpaged g ilike rows q with
    | Return alerts => Return (page q alerts)
    | Raise e => Raise e
    end.
Proof.
  unfold get_emergency_alerts, unpaged.
  destruct (q_latitude q), (q_longitude q); reflexivity.
Qed.

Lemma filter_sublist_list {A} (f : A -> bool) (l : list A) :
  sublist (List.filter f l) l.
Proof.
  induction l as [| x l IH]; cbn; [constructor |].
  destruct (f x); [now apply sublist_skip | now apply sublist_cons].
Qed.

Lemma sublist_In {A} (l k : list A) x : sublist l k -> In x l -> In x k.
Proof.
  intros Hsub Hin. apply list_elem_of_In.
  apply (sublist_subseteq _ _ Hsub). now apply list_elem_of_In.
Qed.

Lemma page_sublist q (l : list EmergencyAlert) : sublist (page q l) l.
Proof.
  unfold page. transitivity (skipn (q_offset q) l).
  - apply sublist_take.
  - apply sublist_drop.
Qed.

(** X24. When the listing succeeds, what it returns is a selection of
    [rows] (the table as the query orders it, latest [issued_at] first),
    in that order, of at most [limit] alerts, each of which
    passes the filters: it is active when [active_only] is set (the
    [status] parameter is then not consulted), has the requested status
    otherwise, has the requested severity, and, when both coordinates are
    given, lies within [alert.radius or radius or 50] of them. *)
Theorem listed_alerts_pass_the_filters (g : Geo) (ilike : Ilike)
  (rows : list EmergencyAlert) (q : AlertsQuery)
  (result : list EmergencyAlert) :
  get_emergency_alerts g ilike rows q = Return result ->
  sublist result rows
  /\ (length result <= q_limit q)%nat
  /\ forall alert, In alert result ->
       (q_active_only q = true -> status alert = Some ACTIVE)
       /\ (forall s, q_active_only q = false -> q_status q = Some s ->
                     status alert = Some s)
       /\ (forall sev, q_severity q = Some sev -> severity alert = sev)
       /\ (forall lat lon,
             q_latitude q = Some lat -> q_longitude q = Some lon ->
             exists distance,
               geodesic_km g (lat, lon) (latitude alert, longitude alert)
               = Some distance
               /\ distance <= or_default (radius alert)
                                         (or_default (q_radius q) 50)).
Proof.
  rewrite get_emergency_alerts_unpaged.
  destruct (unpaged g ilike rows q) as [selected | e] eqn:Hsel;
    [| discriminate].
  intros [= <-].
  assert (Hsub : sublist selected (List.filter (sql_filter ilike q) rows)
                 /\ forall lat lon,
                      q_latitude q = Some lat -> q_longitude q = Some lon ->
                      selected
                      = List.filter (listed_near g q (lat, lon))
                          (List.filter (sql_filter ilike q) rows)).
  { unfold unpaged in Hsel.
    destruct (q_latitude q) as [lat |], (q_longitude q) as [lon |];
      try (injection Hsel as <-; split; [reflexivity | discriminate]).
    apply filter_by_location_run in Hsel. subst selected.
    split; [apply filter_sublist_list |].
    now intros ? ? [= <-] [= <-]. }
  destruct Hsub as [Hsub Hnear].
  split; [| split].
  - transitivity selected; [apply page_sublist |].
    transitivity (List.filter (sql_filter ilike q) rows);
      [exact Hsub | apply filter_sublist_list].
  - unfold page. rewrite List.length_firstn. lia.
  - intros alert Hin.
    assert (Hsel_in : In alert selected).
    { eapply sublist_In; [apply page_sublist | exact Hin]. }
    assert (Hsql : sql_filter ilike q alert = true).
    { assert (Hf : In alert (List.filter (sql_filter ilike q) rows)).
      { eapply sublist_In; [exact Hsub | exact Hsel_in]. }
      now apply filter_In in Hf. }
    unfold sql_filter in Hsql.
    apply andb_true_iff in Hsql as [Hsql _].
    apply andb_true_iff in Hsql as [Hstatus Hseverity].
    unfold status_filter in Hstatus. unfold severity_filter in Hseverity.
    repeat split.
    + intros Hactive. rewrite Hactive in Hstatus.
      now apply bool_decide_eq_true in Hstatus.
    + intros s Hactive Hs. rewrite Hactive, Hs in Hstatus.
      now apply bool_decide_eq_true in Hstatus.
    + intros sev Hsev. rewrite Hsev in Hseverity.
      now apply bool_decide_eq_true in Hseverity.
    + intros lat lon Hlat Hlon.
      rewrite (Hnear lat lon Hlat Hlon) in Hsel_in.
      apply filter_In in Hsel_in as [_ Hd]. unfold listed_near in Hd.
      destruct (geodesic_km g (lat, lon) (latitude alert, longitude alert))
        as [d |]; [| discriminate].
      exists d. split; [reflexivity |]. now apply py_le_true.
Qed.

(** X25. With [active_only] set (its default) the [status] parameter has
    no effect on the listing. *)
Theorem active_only_overrides_status (g : Geo) (ilike : Ilike)
  (rows : list EmergencyAlert) (q : AlertsQuery) (s : option AlertStatus) :
  q_active_only q = true ->
  get_emergency_alerts g ilike rows (with_status q s)
  = get_emergency_alerts g ilike rows q.
Proof.
  intros Hactive.
  assert (Hfilter : List.filter (sql_filter ilike (with_status q s)) rows
                    = List.filter (sql_filter ilike q) rows).
  { apply filter_ext. intros alert.
    unfold sql_filter, status_filter, severity_filter, risk_type_filter.
    cbn. now rewrite Hactive. }
  assert (Hloc : forall loc l,
             filter_by_location g loc (with_status q s) l
             = filter_by_location g loc q l).
  { intros loc l. induction l as [| alert rest IH]; cbn; [reflexivity |].
    now rewrite IH. }
  unfold get_emergency_alerts. cbn [q_latitude q_longitude with_status].
  rewrite Hfilter.
  destruct (q_latitude q), (q_longitude q); try reflexivity.
  now rewrite Hloc.
Qed.

Lemma firstn_of_longer {A} a b (l : list A) :
  firstn a (firstn (a + b) l) = firstn a l.
Proof.
  rewrite firstn_firstn. f_equal. lia.
Qed.

Lemma skipn_of_firstn {A} a b (l : list A) :
  skipn a (firstn (a + b) l) = firstn b (skipn a l).
Proof.
  revert l. induction a as [| a IH]; intros l; [reflexivity |].
  destruct l as [| x l]; cbn; [now rewrite firstn_nil | apply IH].
Qed.

Lemma skipn_skipn_list {A} a b (l : list A) :
  skipn a (skipn b l) = skipn (b + a) l.
Proof.
  revert l. induction b as [| b IH]; intros l; [reflexivity |].
  destruct l as [| x l]; cbn; [now rewrite skipn_nil | apply IH].
Qed.

(** X26. Pages fit together: a listing of [a + b] alerts from an offset is
    the listing of [a] alerts from that offset followed by the listing of
    [b] alerts from [a] further on, so neighbouring pages neither overlap
    nor leave a gap. *)
Theorem pages_fit_together (g : Geo) (ilike : Ilike)
  (rows : list EmergencyAlert) (q : AlertsQuery) (offset a b : nat)
  (both : list EmergencyAlert) :
  get_emergency_alerts g ilike rows (at_page q offset (a + b)) = Return both ->
  exists first second,
    get_emergency_alerts g ilike rows (at_page q offset a) = Return first
    /\ get_emergency_alerts g ilike rows (at_page q (offset + a) b)
       = Return second
    /\ both = first ++ second
    /\ (length first <= a)%nat.
Proof.
  assert (Hsame : forall o n,
             unpaged g ilike rows (at_page q o n) = unpaged g ilike rows q).
  { intros o n. unfold unpaged. cbn [q_latitude q_longitude at_page].
    assert (Hfilter : List.filter (sql_filter ilike (at_page q o n)) rows
                      = List.filter (sql_filter ilike q) rows)
      by (apply filter_ext; reflexivity).
    rewrite Hfilter.
    destruct (q_latitude q), (q_longitude q); try reflexivity.
    generalize (List.filter (sql_filter ilike q) rows) as l.
    induction l as [| alert rest IH]; cbn; [reflexivity |].
    now rewrite IH. }
  rewrite !get_emergency_alerts_unpaged, !Hsame.
  destruct (unpaged g ilike rows q) as [selected | e]; [| discriminate].
  unfold page. cbn [q_limit q_offset at_page]. intros [= <-].
  eexists. eexists. split; [reflexivity |]. split; [reflexivity |].
  split.
  - rewrite <- (skipn_skipn_list a offset selected).
    set (l := skipn offset selected).
    rewrite <- (skipn_of_firstn a b l), <- (firstn_of_longer a b l) at 1.
    symmetry. apply firstn_skipn.
  - rewrite List.length_firstn. lia.
Qed.

Lemma pages_fit_together_witness :
  let rows := [Scenario.alert_at_origin HIGH ACTIVE None;
               Scenario.alert_at_origin LOW ACTIVE None;
               Scenario.alert_at_origin CRITICAL RESOLVED None] in
  let q := {| q_latitude := None; q_longitude := None; q_radius := None;
              q_severity := None; q_status := None; q_risk_type := None;
              q_active_only := true; q_limit := 50; q_offset := 0 |} in
  exists first second,
    get_emergency_alerts Scenario.example_geo (fun _ _ => true) rows
      (at_page q 0 1) = Return first
    /\ get_emergency_alerts Scenario.example_geo (fun _ _ => true) rows
         (at_page q (0 + 1) 1) = Return second
    /\ [Scenario.alert_at_origin HIGH ACTIVE None;
        Scenario.alert_at_origin LOW ACTIVE None] = first ++ second
    /\ (length first <= 1)%nat.
Proof.
  cbv zeta. apply pages_fit_together. reflexivity.
Defined.

Lemma listed_alerts_pass_the_filters_witness :
  let rows := [Scenario.alert_at_origin HIGH ACTIVE None;
               Scenario.alert_at_origin CRITICAL RESOLVED None] in
  let q := {| q_latitude := None; q_longitude := None; q_radius := None;
              q_severity := None; q_status := Some RESOLVED;
              q_risk_type := None;
              q_active_only := true; q_limit := 50; q_offset := 0 |} in
  (length [Scenario.alert_at_origin HIGH ACTIVE None] <= q_limit q)%nat.
Proof.
  cbv zeta.
  refine (proj1 (proj2 (listed_alerts_pass_the_filters Scenario.example_geo
                          (fun _ _ => true)
                          [Scenario.alert_at_origin HIGH ACTIVE None;
                           Scenario.alert_at_origin CRITICAL RESOLVED None]
                          _ [Scenario.alert_at_origin HIGH ACTIVE None] _))).
  reflexivity.
Defined.

Lemma active_only_overrides_status_witness :
  let rows := [Scenario.alert_at_origin HIGH ACTIVE None;
               Scenario.alert_at_origin CRITICAL RESOLVED None] in
  let q := {| q_latitude := None; q_longitude := None; q_radius := None;
              q_severity := None; q_status := None; q_risk_type := None;
              q_active_only := true; q_limit := 50; q_offset := 0 |} in
  get_emergency_alerts Scenario.example_geo (fun _ _ => true) rows
    (with_status q (Some RESOLVED))
  = get_emergency_alerts Scenario.example_geo (fun _ _ => true) rows q.
Proof.
  cbv zeta. apply active_only_overrides_status. reflexivity.
Defined.

End EndpointFacts.
